(** * Conference Hall: proposal submission, organizer gate, ratings, messages

    A shallow embedding of [server/src/speaker/talks.controller.ts]
    ([submitTalk], [unsubmitTalk]) over an explicit relational store, and
    of the organizer sub-handlers exercised by the end-to-end tests of
    [/api/organizer/events/:id/proposals].

    Handlers are computations in a state-and-exception monad over the
    store: a handler that throws leaves behind whatever store it had
    reached, so "no mutation on failure" is a theorem, not a typing fact. *)

From stdpp Require Import base numbers list strings gmap.

Local Open Scope string_scope.
Local Open Scope Z_scope.

(** ** Rows and records *)

(** Events with a fixed CFP window, and series without one. *)
Inductive EventType := CONFERENCE | MEETUP.

Inductive ProposalStatus := SUBMITTED | ACCEPTED.

(** REVIEWER is the read-only role; the other roles may mutate. *)
Inductive OrganizationRole := OWNER | MEMBER | REVIEWER.

Module User.
Record t := mk { id : Z; uid : string }.
End User.

(** A talk as stored: content plus the ids of its co-authors. *)
Module TalkRow.
Record t := mk {
  title : string;
  abstract : string;
  level : option string;
  language : option string;
  references : option string;
  speakerIds : gset Z
}.
End TalkRow.

(** A talk as returned by [getTalk(talkId, { withSpeakers: true })]. *)
Module Talk.
Record t := mk {
  title : string;
  abstract : string;
  level : option string;
  language : option string;
  references : option string;
  speakers : list User.t
}.
End Talk.

Module Event.
Record t := mk {
  type : EventType;
  cfpStart : option Z;
  cfpEnd : option Z;
  formatsRequired : bool;
  categoriesRequired : bool;
  maxProposals : option Z;       (* [None] is null / undefined *)
  ownerId : option Z;
  organizationId : option Z
}.
End Event.

Module Proposal.
Record t := mk {
  id : Z;
  talkId : Z;
  eventId : Z;
  status : ProposalStatus;
  title : string;
  abstract : string;
  level : option string;
  language : option string;
  references : option string;
  comments : option string;
  speakers : gset Z;
  formats : gset Z;
  categories : gset Z
}.
End Proposal.

(** The nested write of a many-to-many relation, [{ set: [...], connect: [...] }];
    a missing key is [None]. *)
Module Relation.
Record t := mk { set : option (list Z); connect : option (list Z) }.
End Relation.

(** The object literal handed to [updateProposal] and [createProposal].
    The content fields come from a stored talk and are a value or null;
    [comments] comes from the body: [None] is a missing key (undefined),
    [Some None] is null. *)
Module ProposalData.
Record t := mk {
  title : string;
  abstract : string;
  level : option string;
  language : option string;
  references : option string;
  comments : option (option string);
  speakers : Relation.t;
  formats : Relation.t;
  categories : Relation.t
}.
End ProposalData.

Module Rating.
Record t := mk { rating : option Z; feeling : option string }.
End Rating.

Module Message.
Record t := mk { userId : Z; proposalId : Z; message : string }.
End Message.

(** [req.body] of a submission. For [comments], [None] is a missing key
    (undefined) and [Some None] is null; for the arrays, [None] is a
    missing key or null. *)
Module Body.
Record t := mk {
  comments : option (option string);
  formats : option (list Z);
  categories : option (list Z)
}.
End Body.

(** The request after [parseInt] of the path parameters. *)
Module Request.
Record t := mk { uid : string; talkId : Z; eventId : Z; body : Body.t }.
End Request.

(** ** The store *)

Record Store := mkStore {
  users : list User.t;
  talks : gmap Z TalkRow.t;
  events : gmap Z Event.t;
  proposals : list Proposal.t;
  proposalSeq : Z;                               (* next autoincrement id *)
  members : gmap (Z * Z) OrganizationRole;       (* (userId, organizationId) *)
  ratings : gmap (Z * Z) Rating.t;               (* (userId, proposalId) *)
  messages : gmap Z Message.t
}.

Definition withProposals (ps : list Proposal.t) (seq : Z) (s : Store) : Store :=
  mkStore (users s) (talks s) (events s) ps seq (members s) (ratings s) (messages s).

Definition withRatings (rs : gmap (Z * Z) Rating.t) (s : Store) : Store :=
  mkStore (users s) (talks s) (events s) (proposals s) (proposalSeq s)
          (members s) rs (messages s).

Definition withMessages (ms : gmap Z Message.t) (s : Store) : Store :=
  mkStore (users s) (talks s) (events s) (proposals s) (proposalSeq s)
          (members s) (ratings s) ms.

(** ** Exceptions and the handler monad *)

Inductive Exception :=
| HttpException (status : Z) (message : string)
| StoreConflict.                (* a unique-constraint violation, uncaught *)

Global Instance Exception_eq_dec : EqDecision Exception.
Proof. solve_decision. Defined.

Inductive Result (A : Type) :=
| Ok (a : A)
| Thrown (e : Exception).
Arguments Ok {A} a.
Arguments Thrown {A} e.

Definition M (A : Type) : Type := Store → Result A * Store.

Definition ret {A} (a : A) : M A := λ s, (Ok a, s).

Definition throw {A} (e : Exception) : M A := λ s, (Thrown e, s).

Definition bind {A B} (m : M A) (k : A → M B) : M B :=
  λ s, match m s with
       | (Ok a, s') => k a s'
       | (Thrown e, s') => (Thrown e, s')
       end.

Definition gets {A} (f : Store → A) : M A := λ s, (Ok (f s), s).

Definition modify (f : Store → Store) : M unit := λ s, (Ok tt, f s).

Notation "'let*' x ':=' m 'in' k" := (bind m (λ x, k))
  (at level 10, x name, m at level 100, k at level 200).

(** [if (!x) throw e] *)
Definition required {A} (x : option A) (e : Exception) : M A :=
  match x with
  | Some a => ret a
  | None => throw e
  end.

(** [if (c) throw e] *)
Definition throwIf (c : bool) (e : Exception) : M unit :=
  if c then throw e else ret tt.

(** ** Repositories

    [users.repository], [talks.repository], [events.repository] and
    [proposals.repository] are imported by the controller but are not
    part of the sources at hand; [Proposal] carries the unique key
    (talkId, eventId). *)

(** Modelled from the spec: [usersRepository.getUserByUid] is missing; the
    identity resolver "maps an authenticated external identity (uid) to an
    internal user record", or to absence. *)
Definition getUserByUid (uid : string) : M (option User.t) :=
  gets (λ s, find (λ u, String.eqb (User.uid u) uid) (users s)).

(** Modelled from the spec: [talksRepository.getTalk] is missing; "Resolve
    Talk with its speakers": the row, joined with the users that co-author
    it. *)
Definition getTalk (talkId : Z) : M (option Talk.t) :=
  gets (λ s,
    match talks s !! talkId with
    | Some row =>
        Some (Talk.mk (TalkRow.title row) (TalkRow.abstract row)
                (TalkRow.level row) (TalkRow.language row)
                (TalkRow.references row)
                (List.filter
                   (λ u, bool_decide (User.id u ∈ TalkRow.speakerIds row))
                   (users s)))
    | None => None
    end).

(** Modelled from the spec: [eventRepository.getEventById] is missing;
    "Resolve Event", a single-row keyed lookup. *)
Definition getEventById (eventId : Z) : M (option Event.t) :=
  gets (λ s, events s !! eventId).

(** Modelled from the spec: [proposalRepository.findUserProposalsForEvent]
    is missing; "the user's proposals for that event", an equality-filtered
    lookup: the proposals of the event that list the user among their
    speakers. *)
Definition findUserProposalsForEvent (eventId userId : Z) : M (list Proposal.t) :=
  gets (λ s,
    List.filter
      (λ p, (Proposal.eventId p =? eventId)
            && bool_decide (userId ∈ Proposal.speakers p))
      (proposals s)).

(** Modelled from the spec: [proposalRepository.getProposalForEvent] is
    missing; "locate the single Proposal for (talkId, eventId)". *)
Definition getProposalForEvent (talkId eventId : Z) : M (option Proposal.t) :=
  gets (λ s,
    find (λ p, (Proposal.talkId p =? talkId) && (Proposal.eventId p =? eventId))
         (proposals s)).

(** Modelled from the spec: how the store applies a nested relation write,
    "clear-then-reconnect": [set] replaces the links, [connect] adds to
    them; a missing key does nothing. *)
Definition writeRelation (r : Relation.t) (links : gset Z) : gset Z :=
  match Relation.set r with Some l => list_to_set l | None => links end
  ∪ match Relation.connect r with Some l => list_to_set l | None => ∅ end.

(** Modelled from the spec: how the store writes a scalar field: the value
    (or null) of the key, and as for a relation, a missing key does
    nothing. *)
Definition writeField {A} (value : option A) (stored : A) : A :=
  match value with
  | Some a => a
  | None => stored
  end.

(** Modelled from the spec: the row written by [updateProposal]; "overwrite
    its content fields", "set comments from the request body", "replace
    speaker/format/category associations". Identity and status stay. *)
Definition writeProposal (data : ProposalData.t) (p : Proposal.t) : Proposal.t :=
  Proposal.mk (Proposal.id p) (Proposal.talkId p) (Proposal.eventId p)
    (Proposal.status p)
    (ProposalData.title data) (ProposalData.abstract data)
    (ProposalData.level data) (ProposalData.language data)
    (ProposalData.references data)
    (writeField (ProposalData.comments data) (Proposal.comments p))
    (writeRelation (ProposalData.speakers data) (Proposal.speakers p))
    (writeRelation (ProposalData.formats data) (Proposal.formats p))
    (writeRelation (ProposalData.categories data) (Proposal.categories p)).

(** Modelled from the spec: [proposalRepository.updateProposal] is missing;
    a single-row keyed write. *)
Definition updateProposal (id : Z) (data : ProposalData.t) : M unit :=
  modify (λ s,
    withProposals
      (map (λ p, if Proposal.id p =? id then writeProposal data p else p)
           (proposals s))
      (proposalSeq s) s).

(** Modelled from the spec: [proposalRepository.createProposal] is missing;
    "create a new Proposal as a content snapshot of the Talk plus the
    supplied comments/formats/categories", status SUBMITTED, under the
    store's uniqueness constraint "Proposal per talk/event", whose
    violation is a store-level conflict. *)
Definition createProposal (talkId eventId : Z) (data : ProposalData.t) : M unit :=
  λ s,
    if existsb
         (λ p, (Proposal.talkId p =? talkId) && (Proposal.eventId p =? eventId))
         (proposals s)
    then (Thrown StoreConflict, s)
    else
      (Ok tt,
       withProposals
         (proposals s ++
          [writeProposal data
             (Proposal.mk (proposalSeq s) talkId eventId SUBMITTED
                "" "" None None None None ∅ ∅ ∅)])
         (proposalSeq s + 1) s).

(** Modelled from the spec: [proposalRepository.deleteProposal] is missing;
    "delete it outright (no soft-delete)". *)
Definition deleteProposal (id : Z) : M unit :=
  modify (λ s,
    withProposals
      (List.filter (λ p, negb (Proposal.id p =? id)) (proposals s))
      (proposalSeq s) s).

(** ** [talks.controller.ts] *)

(** lodash [isEmpty] on an optional array. *)
Definition isEmpty (xs : option (list Z)) : bool :=
  match xs with
  | Some (_ :: _) => false
  | _ => true
  end.

(** [Boolean] on a number. *)
Definition Boolean (n : Z) : bool := negb (n =? 0).

(** [if (xs && xs.length > 0) { ys = xs.filter(Boolean).map((id) => ({ id })) }],
    with [ys] declared and otherwise left undefined. *)
Definition connectIds (xs : option (list Z)) : option (list Z) :=
  match xs with
  | Some (x :: l) => Some (List.filter Boolean (x :: l))
  | _ => None
  end.

Section Controller.

(** [isCfpOpened] of [common/cfp-dates] reads the clock and is not part
    of the sources at hand: it is a parameter, the answer it gives at
    the time of the request. *)
Variable isCfpOpened : EventType → option Z → option Z → bool.

Definition submitTalk (req : Request.t) : M unit :=
  let uid := Request.uid req in
  let talkId := Request.talkId req in
  let eventId := Request.eventId req in
  let body := Request.body req in

  let* user := getUserByUid uid in
  let* user := required user (HttpException 404 "User not found") in

  let* talk := getTalk talkId in
  let* talk := required talk (HttpException 404 "Talk not found") in
  let isUserSpeaker :=
    existsb (λ speaker, String.eqb (User.uid speaker) uid) (Talk.speakers talk) in
  let* _ := throwIf (negb isUserSpeaker) (HttpException 403 "Forbidden") in

  let* event := getEventById eventId in
  let* event := required event (HttpException 404 "Event not found") in
  let* _ := throwIf
      (negb (isCfpOpened (Event.type event) (Event.cfpStart event) (Event.cfpEnd event)))
      (HttpException 403 "CFP is closed") in
  let* _ := throwIf
      (Event.formatsRequired event && isEmpty (Body.formats body))
      (HttpException 400 "Formats are required for the event") in
  let* _ := throwIf
      (Event.categoriesRequired event && isEmpty (Body.categories body))
      (HttpException 400 "Categories are required for the event") in

  let* proposals := findUserProposalsForEvent eventId (User.id user) in
  let proposal := find (λ p, Proposal.talkId p =? talkId) proposals in

  let formats := connectIds (Body.formats body) in
  let categories := connectIds (Body.categories body) in

  match proposal with
  | Some proposal =>
      updateProposal (Proposal.id proposal)
        (ProposalData.mk
           (Talk.title talk) (Talk.abstract talk) (Talk.level talk)
           (Talk.language talk) (Talk.references talk)
           (Body.comments body)
           (Relation.mk (Some []) (Some (map User.id (Talk.speakers talk))))
           (Relation.mk (Some []) formats)
           (Relation.mk (Some []) categories))
  | None =>
      if match Event.maxProposals event with
         | Some maxProposals =>
             negb (maxProposals =? 0)
             && (Z.of_nat (length proposals) =? maxProposals)
         | None => false
         end
      then throw (HttpException 403 "Max proposals reached")
      else
        createProposal talkId eventId
          (ProposalData.mk
             (Talk.title talk) (Talk.abstract talk) (Talk.level talk)
             (Talk.language talk) (Talk.references talk)
             (Body.comments body)
             (Relation.mk None (Some (map User.id (Talk.speakers talk))))
             (Relation.mk None formats)
             (Relation.mk None categories))
  end.

Definition unsubmitTalk (req : Request.t) : M unit :=
  let uid := Request.uid req in
  let talkId := Request.talkId req in
  let eventId := Request.eventId req in

  let* user := getUserByUid uid in
  let* user := required user (HttpException 404 "User not found") in

  let* talk := getTalk talkId in
  let* talk := required talk (HttpException 404 "Talk not found") in
  let isUserSpeaker :=
    existsb (λ speaker, String.eqb (User.uid speaker) uid) (Talk.speakers talk) in
  let* _ := throwIf (negb isUserSpeaker) (HttpException 403 "Forbidden") in

  let* event := getEventById eventId in
  let* event := required event (HttpException 404 "Event not found") in
  let* _ := throwIf
      (negb (isCfpOpened (Event.type event) (Event.cfpStart event) (Event.cfpEnd event)))
      (HttpException 403 "CFP is closed") in

  let* proposal := getProposalForEvent talkId eventId in
  let* proposal := required proposal (HttpException 404 "Proposal not found") in

  deleteProposal (Proposal.id proposal).

End Controller.

(** ** Organizer endpoints

    The organizer controllers are not part of the sources at hand; their
    end-to-end tests are. *)

(** The status of the response to a handler that returns nothing: 204 on
    success, as the tests expect; the status of the exception otherwise. An
    uncaught store error is left to the framework. *)
Definition responseStatus (r : Result unit) : option Z :=
  match r with
  | Ok _ => Some 204
  | Thrown (HttpException status _) => Some status
  | Thrown StoreConflict => None
  end.

(** Modelled from the spec: the authentication step is missing; rule 1 of
    the gate, "No identity -> fail Unauthenticated (401)". *)
Definition authenticate (identity : option string) : M string :=
  required identity (HttpException 401 "Unauthenticated").

Definition isReviewer (role : OrganizationRole) : bool :=
  match role with
  | REVIEWER => true
  | _ => false
  end.

(** Modelled from the spec: the event access check of the organizer
    controllers is missing; rules 2 to 5 of the gate, in order: identity
    unresolvable, event not found, neither the direct owner nor a member of
    the event's organization, and for mutation endpoints a membership whose
    role is the reviewer role. *)
Definition checkEventAccess (mutation : bool) (uid : string) (eventId : Z)
  : M User.t :=
  let* user := getUserByUid uid in
  let* user := required user (HttpException 404 "User not found") in
  let* event := getEventById eventId in
  let* event := required event (HttpException 404 "Event not found") in
  if bool_decide (Event.ownerId event = Some (User.id user)) then ret user
  else
    let* role := gets (λ s,
      match Event.organizationId event with
      | Some organizationId => members s !! (User.id user, organizationId)
      | None => None
      end) in
    let* role := required role (HttpException 403 "Forbidden") in
    let* _ := throwIf (mutation && isReviewer role) (HttpException 403 "Forbidden") in
    ret user.

(** Modelled from the spec: the handler of PATCH
    /api/organizer/events/:id/proposals is missing; a mutation endpoint
    behind the gate, which sets the status of the event's proposals (the
    tests send empty filters). *)
Definition updateEventProposals (identity : option string) (eventId : Z)
    (status : ProposalStatus) : M unit :=
  let* uid := authenticate identity in
  let* _ := checkEventAccess true uid eventId in
  modify (λ s,
    withProposals
      (map (λ p,
         if Proposal.eventId p =? eventId
         then Proposal.mk (Proposal.id p) (Proposal.talkId p) (Proposal.eventId p)
                status
                (Proposal.title p) (Proposal.abstract p) (Proposal.level p)
                (Proposal.language p) (Proposal.references p)
                (Proposal.comments p) (Proposal.speakers p)
                (Proposal.formats p) (Proposal.categories p)
         else p)
         (proposals s))
      (proposalSeq s) s).

Section Rate.

(** The accepted numeric range and the defined feelings are not given by
    the spec: they are parameters. *)
Variable validRating : Z → bool.
Variable validFeeling : string → bool.

(** Modelled from the spec: the validation of a rating is missing;
    "rating is within the accepted numeric range and feeling is one of the
    defined categorical values", each when present. *)
Definition validRate (rating : option Z) (feeling : option string) : bool :=
  match rating with Some r => validRating r | None => true end
  && match feeling with Some f => validFeeling f | None => true end.

(** Modelled from the spec: the rating sub-handler is missing;
    "invalid input -> ValidationFailed (400). If both rating and feeling
    are null/absent, delete any existing row for (userId, proposalId).
    Otherwise upsert by the unique (userId, proposalId) key." *)
Definition rate (proposalId userId : Z) (rating : option Z)
    (feeling : option string) : M unit :=
  let* _ := throwIf (negb (validRate rating feeling))
              (HttpException 400 "Validation failed") in
  match rating, feeling with
  | None, None =>
      modify (λ s, withRatings (delete (userId, proposalId) (ratings s)) s)
  | _, _ =>
      modify (λ s,
        withRatings
          (<[(userId, proposalId) := Rating.mk rating feeling]> (ratings s)) s)
  end.

(** Read-back of the (userId, proposalId) rating, the [findUnique] of the
    tests. *)
Definition findRating (userId proposalId : Z) (s : Store) : option Rating.t :=
  ratings s !! (userId, proposalId).

End Rate.

(** Modelled from the spec: the lookup shared by message update and delete
    is missing; "requires the Message to exist and belong to the requesting
    User for that proposal; otherwise MessageNotFound (404)". *)
Definition findUserMessage (proposalId messageId : Z) (user : User.t)
  : M Message.t :=
  let* message := gets (λ s, messages s !! messageId) in
  match message with
  | Some m =>
      if (Message.userId m =? User.id user)
         && (Message.proposalId m =? proposalId)
      then ret m
      else throw (HttpException 404 "Message not found")
  | None => throw (HttpException 404 "Message not found")
  end.

(** Modelled from the spec: the handler of PATCH .../messages/:id is
    missing. The body is validated before the event access check: the test
    of a non-member who sends no message expects 400. [mutation] is the
    flavour of the gate the route is mounted with. *)
Definition updateMessage (mutation : bool) (identity : option string)
    (eventId proposalId messageId : Z) (text : option string) : M unit :=
  let* uid := authenticate identity in
  let* text := required (match text with Some "" => None | _ => text end)
                 (HttpException 400 "Validation failed") in
  let* user := checkEventAccess mutation uid eventId in
  let* m := findUserMessage proposalId messageId user in
  modify (λ s,
    withMessages
      (<[messageId := Message.mk (Message.userId m) (Message.proposalId m) text]>
         (messages s)) s).

(** Modelled from the spec: the handler of DELETE .../messages/:id is
    missing. *)
Definition deleteMessage (mutation : bool) (identity : option string)
    (eventId proposalId messageId : Z) : M unit :=
  let* uid := authenticate identity in
  let* user := checkEventAccess mutation uid eventId in
  let* _ := findUserMessage proposalId messageId user in
  modify (λ s, withMessages (delete messageId (messages s)) s).

(** ** Vocabulary of the statements *)

(** The rows of the (talkId, eventId) pair. *)
Definition proposalsFor (talkId eventId : Z) (s : Store) : list Proposal.t :=
  List.filter
    (λ p, (Proposal.talkId p =? talkId) && (Proposal.eventId p =? eventId))
    (proposals s).

(** The constraints the relational schema keeps: external uids are unique,
    proposal ids are unique and below the autoincrement counter, and there
    is at most one proposal per (talkId, eventId) pair. *)
Definition wfStore (s : Store) : Prop :=
  NoDup (map User.uid (users s))
  ∧ NoDup (map Proposal.id (proposals s))
  ∧ (∀ p, p ∈ proposals s → Proposal.id p < proposalSeq s)
  ∧ NoDup (map (λ p, (Proposal.talkId p, Proposal.eventId p)) (proposals s)).

(** The reads of the repositories answer without touching the store. *)
Class Reads {A} (m : M A) : Prop :=
  reads : ∀ s, ∃ a, m s = (Ok a, s).
Arguments reads {A} m {_} s.

(** The failures of the checks of a submission, in the order of the checks. *)
Definition checkFailures : list Exception :=
  [ HttpException 404 "User not found";
    HttpException 404 "Talk not found";
    HttpException 403 "Forbidden";
    HttpException 404 "Event not found";
    HttpException 403 "CFP is closed";
    HttpException 400 "Formats are required for the event";
    HttpException 400 "Categories are required for the event" ].

(** The ids a request supplies for a relation: absent and empty arrays
    supply none, falsy entries are dropped. *)
Definition supplied (xs : option (list Z)) : gset Z :=
  list_to_set (List.filter Boolean (default [] xs)).

(** The row a submission leaves for proposal [p]: the content of the talk,
    the comments of the body (those of [p] when the body has no comments
    key), the speakers of the talk and the supplied formats and
    categories, under the identity and status of [p]. *)
Definition snapshot (p : Proposal.t) (talk : Talk.t) (body : Body.t) : Proposal.t :=
  Proposal.mk (Proposal.id p) (Proposal.talkId p) (Proposal.eventId p)
    (Proposal.status p)
    (Talk.title talk) (Talk.abstract talk) (Talk.level talk)
    (Talk.language talk) (Talk.references talk)
    (writeField (Body.comments body) (Proposal.comments p))
    (list_to_set (map User.id (Talk.speakers talk)))
    (supplied (Body.formats body)) (supplied (Body.categories body)).

Section Checks.

Variable isCfpOpened : EventType → option Z → option Z → bool.

(** The requester resolves to [user], the talk exists and lists the
    requester among its speakers, the event exists and its CFP is open:
    the checks that submission and un-submission share. *)
Definition Resolved (req : Request.t) (s : Store)
    (user : User.t) (talk : Talk.t) (event : Event.t) : Prop :=
  getUserByUid (Request.uid req) s = (Ok (Some user), s)
  ∧ getTalk (Request.talkId req) s = (Ok (Some talk), s)
  ∧ existsb (λ speaker, String.eqb (User.uid speaker) (Request.uid req))
      (Talk.speakers talk) = true
  ∧ getEventById (Request.eventId req) s = (Ok (Some event), s)
  ∧ isCfpOpened (Event.type event) (Event.cfpStart event) (Event.cfpEnd event) = true.

(** Every check of a submission passes: the shared ones, and required
    formats and categories are supplied. *)
Definition Checked (req : Request.t) (s : Store)
    (user : User.t) (talk : Talk.t) (event : Event.t) : Prop :=
  Resolved req s user talk event
  ∧ Event.formatsRequired event && isEmpty (Body.formats (Request.body req)) = false
  ∧ Event.categoriesRequired event && isEmpty (Body.categories (Request.body req)) = false.

(** The proposal a submission would update: the one of the talk among the
    requester's proposals for the event. *)
Definition existingProposal (req : Request.t) (user : User.t) (s : Store)
  : option Proposal.t :=
  match findUserProposalsForEvent (Request.eventId req) (User.id user) s with
  | (Ok proposals, _) =>
      find (λ p, Proposal.talkId p =? Request.talkId req) proposals
  | _ => None
  end.

(** How many proposals the requester already has for the event. *)
Definition proposalCount (req : Request.t) (user : User.t) (s : Store) : Z :=
  match findUserProposalsForEvent (Request.eventId req) (User.id user) s with
  | (Ok proposals, _) => Z.of_nat (length proposals)
  | _ => 0
  end.

End Checks.

(** ** A running scenario

    Ben has two talks, one of them with a co-speaker, and owns an event
    that takes one proposal per speaker and requires formats. A second
    event has its CFP over; a third one, of an organization where Ben is
    a reviewer, caps proposals at zero. *)

(** Modelled from the spec: [isCfpOpened] at a given time, for events with
    a window: "require now within [cfpStart, cfpEnd]"; "absence of bounds"
    is "permanently open". Used to run the scenario only. *)
Definition isCfpOpenedAt (now : Z) (type : EventType)
    (cfpStart cfpEnd : option Z) : bool :=
  match cfpStart, cfpEnd with
  | Some start, Some stop => (start <=? now) && (now <=? stop)
  | _, _ => true
  end.

(** Ratings from 0 to 5 and the feeling of the tests, to run the scenario. *)
Definition ratingInRange (rating : Z) : bool := (0 <=? rating) && (rating <=? 5).
Definition feelingKnown (feeling : string) : bool :=
  bool_decide (feeling ∈ ["LOVE"; "HATE"; "NEUTRAL"; "NO_OPINION"]).

Definition ben : User.t := User.mk 1 "ben".
Definition other : User.t := User.mk 2 "other".

Definition talkA : Talk.t :=
  Talk.mk "Talk A" "An abstract" (Some "BEGINNER") (Some "en") None [ben].
Definition talkB : Talk.t :=
  Talk.mk "Talk B" "Another one" None None None [ben; other].

Definition benEvent : Event.t :=
  Event.mk CONFERENCE (Some 10) (Some 20) true false (Some 1) (Some 1) None.
Definition pastEvent : Event.t :=
  Event.mk CONFERENCE (Some 1) (Some 5) false false None (Some 2) None.
Definition orgaEvent : Event.t :=
  Event.mk MEETUP None None false false (Some 0) None (Some 7).

Definition scenario : Store :=
  mkStore [ben; other]
    (<[10 := TalkRow.mk "Talk A" "An abstract" (Some "BEGINNER") (Some "en") None {[1]}]>
     (<[11 := TalkRow.mk "Talk B" "Another one" None None None {[1; 2]}]> ∅))
    (<[100 := benEvent]> (<[101 := pastEvent]> (<[102 := orgaEvent]> ∅)))
    [] 1
    (<[(1, 7) := REVIEWER]> ∅)
    ∅
    (<[50 := Message.mk 2 1 "Hello world"]> ∅).

Definition submission (uid : string) (talkId eventId : Z) : Request.t :=
  Request.mk uid talkId eventId
    (Body.mk (Some (Some "Please")) (Some [0; 3; 4]) None).

Definition proposalA : Proposal.t :=
  Proposal.mk 1 10 100 SUBMITTED "Talk A" "An abstract" (Some "BEGINNER")
    (Some "en") None (Some "Please") {[1]} {[3; 4]} ∅.

(** The scenario once Ben has submitted talk A to his event. *)
Definition afterTalkA : Store := withProposals [proposalA] 2 scenario.

(** ... and has then edited the abstract of talk A. *)
Definition afterEdit : Store :=
  mkStore (users afterTalkA)
    (<[10 := TalkRow.mk "Talk A" "A better abstract" (Some "BEGINNER") (Some "en")
              None {[1]}]> (talks afterTalkA))
    (events afterTalkA) (proposals afterTalkA) (proposalSeq afterTalkA)
    (members afterTalkA) (ratings afterTalkA) (messages afterTalkA).

(** ** The other handlers of [talks.controller.ts]

    [updateTalk], [deleteTalk], [addSpeakerToTalk] and
    [removeSpeakerFromTalk], over [talksRepository] and
    [usersRepository.getUser]. *)

Definition withTalks (ts : gmap Z TalkRow.t) (s : Store) : Store :=
  mkStore (users s) ts (events s) (proposals s) (proposalSeq s)
          (members s) (ratings s) (messages s).

Module usersRepository.

(** Modelled from the spec: [usersRepository.getUser] is missing; the user
    record of an internal id, or absence. *)
Definition getUser (id : Z) : M (option User.t) :=
  gets (λ s, find (λ u, User.id u =? id) (users s)).

End usersRepository.

Module talksRepository.

Section Writes.

(** The body of an update request, and how the repository writes it to
    the row of the talk, are not part of the sources at hand: parameters. *)
Variable TalkBody : Type.
Variable writeBody : TalkBody → TalkRow.t → TalkRow.t.

(** The three objects the controller hands to [updateTalk]: [req.body],
    [{ speakers: { connect: [...] } }] and
    [{ speakers: { disconnect: [...] } }]. *)
Inductive TalkData :=
| Fields (body : TalkBody)
| Connect (ids : list Z)
| Disconnect (ids : list Z).

(** Modelled from the spec: how the store writes the talk's "many-to-many
    relation to User (speakers)": [connect] links the listed users in
    addition to the linked ones, [disconnect] unlinks them. *)
Definition writeTalk (data : TalkData) (row : TalkRow.t) : TalkRow.t :=
  match data with
  | Fields body => writeBody body row
  | Connect ids =>
      TalkRow.mk (TalkRow.title row) (TalkRow.abstract row) (TalkRow.level row)
        (TalkRow.language row) (TalkRow.references row)
        (TalkRow.speakerIds row ∪ list_to_set ids)
  | Disconnect ids =>
      TalkRow.mk (TalkRow.title row) (TalkRow.abstract row) (TalkRow.level row)
        (TalkRow.language row) (TalkRow.references row)
        (TalkRow.speakerIds row ∖ list_to_set ids)
  end.

(** Modelled from the spec: [talksRepository.updateTalk] is missing; a
    single-row keyed write of the talk. *)
Definition updateTalk (talkId : Z) (data : TalkData) : M unit :=
  modify (λ s, withTalks (alter (writeTalk data) talkId (talks s)) s).

End Writes.

(** Modelled from the spec: [talksRepository.deleteTalk] is missing; the
    row of the talk is removed. Proposals are content snapshots, "not
    live-linked", and stay. *)
Definition deleteTalk (talkId : Z) : M unit :=
  modify (λ s, withTalks (delete talkId (talks s)) s).

End talksRepository.

Section TalkHandlers.

Variable TalkBody : Type.
Variable writeBody : TalkBody → TalkRow.t → TalkRow.t.

(** [uid] is [req.user.uid], [talkId] is [parseInt(req.params.id)] and
    [body] is [req.body]. *)
Definition updateTalk (uid : string) (talkId : Z) (body : TalkBody) : M unit :=
  let* talk := getTalk talkId in
  let* talk := required talk (HttpException 404 "Talk not found") in
  let isSpeaker :=
    existsb (λ speaker, String.eqb (User.uid speaker) uid) (Talk.speakers talk) in
  let* _ := throwIf (negb isSpeaker) (HttpException 403 "Forbidden") in
  talksRepository.updateTalk TalkBody writeBody talkId
    (talksRepository.Fields TalkBody body).

Definition deleteTalk (uid : string) (talkId : Z) : M unit :=
  let* talk := getTalk talkId in
  let* talk := required talk (HttpException 404 "Talk not found") in
  let isSpeaker :=
    existsb (λ speaker, String.eqb (User.uid speaker) uid) (Talk.speakers talk) in
  let* _ := throwIf (negb isSpeaker) (HttpException 403 "Forbidden") in
  talksRepository.deleteTalk talkId.

(** [talkId] and [speakerId] are [parseInt] of the path parameters of the
    same names. *)
Definition addSpeakerToTalk (uid : string) (talkId speakerId : Z) : M unit :=
  let* talk := getTalk talkId in
  let* talk := required talk (HttpException 404 "Talk not found") in
  let* speaker := usersRepository.getUser speakerId in
  let* speaker := required speaker (HttpException 404 "Speaker not found") in
  let isUserSpeaker :=
    existsb (λ speaker, String.eqb (User.uid speaker) uid) (Talk.speakers talk) in
  let* _ := throwIf (negb isUserSpeaker) (HttpException 403 "Forbidden") in
  let isAlreadySpeaker :=
    existsb (λ speaker, User.id speaker =? speakerId) (Talk.speakers talk) in
  let* _ := throwIf isAlreadySpeaker
              (HttpException 409 "Speaker already attached to the talk") in
  talksRepository.updateTalk TalkBody writeBody talkId
    (talksRepository.Connect TalkBody [speakerId]).

Definition removeSpeakerFromTalk (uid : string) (talkId speakerId : Z) : M unit :=
  let* talk := getTalk talkId in
  let* talk := required talk (HttpException 404 "Talk not found") in
  let isUserSpeaker :=
    existsb (λ speaker, String.eqb (User.uid speaker) uid) (Talk.speakers talk) in
  let* _ := throwIf (negb isUserSpeaker) (HttpException 403 "Forbidden") in
  let existsSpeaker :=
    existsb (λ speaker, User.id speaker =? speakerId) (Talk.speakers talk) in
  let* _ := throwIf (negb existsSpeaker)
              (HttpException 409 "Speaker does not belong to the talk") in
  talksRepository.updateTalk TalkBody writeBody talkId
    (talksRepository.Disconnect TalkBody [speakerId]).

End TalkHandlers.

(** An update body that sets the title, to run the scenario. *)
Definition retitle (title : string) (row : TalkRow.t) : TalkRow.t :=
  TalkRow.mk title (TalkRow.abstract row) (TalkRow.level row)
    (TalkRow.language row) (TalkRow.references row) (TalkRow.speakerIds row).

Definition talkRowA (speakerIds : gset Z) : TalkRow.t :=
  TalkRow.mk "Talk A" "An abstract" (Some "BEGINNER") (Some "en") None speakerIds.
Definition talkRowB (speakerIds : gset Z) : TalkRow.t :=
  TalkRow.mk "Talk B" "Another one" None None None speakerIds.

(** Talk A once Ben has added the other user to it. *)
Definition withCoSpeaker (s : Store) : Store :=
  withTalks (<[10 := talkRowA {[1; 2]}]> (talks s)) s.

(** Talk B once the other user has left it. *)
Definition afterOtherLeft : Store :=
  withTalks (<[11 := talkRowB {[1]}]> (talks scenario)) scenario.

(** Talk A once Ben, its only speaker, has left it. *)
Definition orphaned : Store :=
  withTalks (<[10 := talkRowA ∅]> (talks scenario)) scenario.

(** The scenario once Ben has deleted talk A. *)
Definition afterDelete : Store := withTalks (delete 10 (talks scenario)) scenario.

(** The scenario once Ben has submitted talk A and taken it back. *)
Definition afterUnsubmit : Store := withProposals [] 2 scenario.

(** A submission of talk A whose body has no comments key. *)
Definition silentSubmission : Request.t :=
  Request.mk "ben" 10 100 (Body.mk None (Some [3]) None).

(** A submission whose formats are all falsy, and the scenario after it. *)
Definition falsySubmission : Request.t :=
  Request.mk "ben" 10 100 (Body.mk None (Some [0; 0]) None).

Definition afterFalsy : Store :=
  withProposals
    [Proposal.mk 1 10 100 SUBMITTED "Talk A" "An abstract" (Some "BEGINNER")
       (Some "en") None None {[1]} ∅ ∅]
    2 scenario.

(** The scenario once Ben has also submitted talk B to the third event. *)
Definition proposalB : Proposal.t :=
  Proposal.mk 2 11 102 SUBMITTED "Talk B" "Another one" None None None
    (Some "Please") {[1; 2]} {[3; 4]} ∅.

Definition afterTalkB : Store := withProposals [proposalA; proposalB] 3 scenario.

(** ** Lists of rows *)

Section Rows.

Context {A : Type}.

Lemma find_unique (P : A → bool) (l : list A) (x : A) :
  x ∈ l → P x = true → (∀ y, y ∈ l → P y = true → y = x) →
  find P l = Some x.
Proof.
  induction l as [|a l IH]; intros Hin HP Huniq.
  - by apply elem_of_nil in Hin.
  - simpl. destruct (P a) eqn:Ha.
    + f_equal. apply Huniq; [left | done].
    + apply IH; [|done|].
      * apply elem_of_cons in Hin as [->|]; [congruence | done].
      * intros y Hy. apply Huniq. by right.
Qed.

Lemma find_Some_elem (P : A → bool) (l : list A) (x : A) :
  find P l = Some x → x ∈ l ∧ P x = true.
Proof.
  induction l as [|a l IH]; simpl; [done|].
  destruct (P a) eqn:Ha.
  - intros [= ->]. split; [left | done].
  - intros H. destruct (IH H). split; [by right | done].
Qed.

Lemma find_None_elem (P : A → bool) (l : list A) :
  find P l = None → ∀ x, x ∈ l → P x = false.
Proof.
  induction l as [|a l IH]; simpl; intros H x Hx.
  - by apply elem_of_nil in Hx.
  - destruct (P a) eqn:Ha; [done|].
    apply elem_of_cons in Hx as [->|]; [done | by apply IH].
Qed.

Lemma elem_of_bfilter (P : A → bool) (l : list A) (x : A) :
  x ∈ List.filter P l ↔ x ∈ l ∧ P x = true.
Proof. rewrite !list_elem_of_In. apply filter_In. Qed.

Lemma bfilter_none (P : A → bool) (l : list A) :
  (∀ x, x ∈ l → P x = false) → List.filter P l = [].
Proof.
  induction l as [|a l IH]; simpl; intros H; [done|].
  rewrite (H a) by left. apply IH. intros x Hx. apply H. by right.
Qed.

Lemma existsb_false_elem (P : A → bool) (l : list A) :
  existsb P l = false → ∀ x, x ∈ l → P x = false.
Proof.
  induction l as [|a l IH]; simpl; intros H x Hx.
  - by apply elem_of_nil in Hx.
  - apply orb_false_iff in H as [Ha Hl].
    apply elem_of_cons in Hx as [->|]; [done | by apply IH].
Qed.

Lemma existsb_true_elem (P : A → bool) (l : list A) :
  existsb P l = true → ∃ x, x ∈ l ∧ P x = true.
Proof.
  rewrite existsb_exists. intros (x & Hx & HP). exists x.
  by rewrite list_elem_of_In.
Qed.

Lemma existsb_bfilter (P : A → bool) (l : list A) :
  existsb P l = match List.filter P l with [] => false | _ :: _ => true end.
Proof.
  induction l as [|a l IH]; simpl; [done|]. by destruct (P a).
Qed.

Lemma find_None_intro (P : A → bool) (l : list A) :
  (∀ x, x ∈ l → P x = false) → find P l = None.
Proof.
  induction l as [|a l IH]; simpl; intros H; [done|].
  rewrite (H a) by left. apply IH. intros x Hx. apply H. by right.
Qed.

Lemma bfilter_split_length (P : A → bool) (l : list A) :
  length l = (length (List.filter P l)
              + length (List.filter (λ x, negb (P x)) l))%nat.
Proof.
  induction l as [|a l IH]; simpl; [done|].
  destruct (P a); simpl; lia.
Qed.

(** Under a unique key, two rows of the table with the same key are one
    row. *)
Lemma unique_key_inj {K} (k : A → K) (l : list A) (x y : A) :
  NoDup (map k l) → x ∈ l → y ∈ l → k x = k y → x = y.
Proof.
  induction l as [|a l IH]; simpl; intros Hnd Hx Hy Hk.
  - by apply elem_of_nil in Hx.
  - apply NoDup_cons in Hnd as [Ha Hnd].
    apply elem_of_cons in Hx as [->|Hx]; apply elem_of_cons in Hy as [->|Hy].
    + done.
    + exfalso. apply Ha. rewrite Hk. apply list_elem_of_fmap. eauto.
    + exfalso. apply Ha. rewrite <-Hk. apply list_elem_of_fmap. eauto.
    + by apply IH.
Qed.

Lemma map_rewrite_key {K} (k : A → K) (g : A → bool) (f : A → A) (l : list A) :
  (∀ x, k (f x) = k x) →
  map k (map (λ x, if g x then f x else x) l) = map k l.
Proof.
  intros Hk. rewrite map_map. apply map_ext. intros x. by destruct (g x).
Qed.

Lemma elem_of_map_rewrite (g : A → bool) (f : A → A) (l : list A) (y : A) :
  y ∈ map (λ x, if g x then f x else x) l →
  ∃ x, x ∈ l ∧ y = if g x then f x else x.
Proof.
  intros (x & -> & Hx)%list_elem_of_fmap. eauto.
Qed.

(** Rewriting the rows a predicate selects, when they are already as
    rewritten, changes nothing. *)
Lemma map_rewrite_fixed (g : A → bool) (f : A → A) (l : list A) :
  (∀ x, x ∈ l → g x = true → f x = x) →
  map (λ x, if g x then f x else x) l = l.
Proof.
  induction l as [|a l IH]; simpl; intros H; [done|].
  rewrite IH by (intros x Hx; apply H; by right).
  destruct (g a) eqn:Ha; [|done]. by rewrite H by (done || left).
Qed.

(** Rewriting the rows of one key, under a unique key, replaces one row
    in place. *)
Lemma map_rewrite_insert {K} (k : A → K) (g : A → bool) (f : A → A)
    (l : list A) (i : nat) (x : A) :
  NoDup (map k l) → l !! i = Some x →
  (∀ y, g y = true ↔ k y = k x) →
  map (λ y, if g y then f y else y) l = <[i := f x]> l.
Proof.
  intros Hnd Hi Hg. revert i Hi.
  induction l as [|a l IH]; intros i Hi; [done|].
  simpl in Hnd. apply NoDup_cons in Hnd as [Ha Hnd].
  destruct i as [|i]; simpl in *.
  - injection Hi as ->.
    rewrite (proj2 (Hg x) eq_refl). f_equal.
    apply map_rewrite_fixed. intros y Hy Hgy. exfalso. apply Ha.
    apply Hg in Hgy. rewrite <-Hgy. apply list_elem_of_fmap. eauto.
  - rewrite (IH Hnd i Hi). destruct (g a) eqn:Hga; [|done]. exfalso. apply Ha.
    apply Hg in Hga. rewrite Hga. apply list_elem_of_fmap.
    exists x. split; [done|]. by apply (list_elem_of_lookup_2 l i).
Qed.

(** Under a unique key, the rows that share the key of a row of the
    table are that row alone. *)
Lemma bfilter_unique_key {K} (k : A → K) (g : A → bool) (l : list A) (x : A) :
  NoDup (map k l) → x ∈ l → (∀ y, g y = true ↔ k y = k x) →
  List.filter g l = [x].
Proof.
  intros Hnd Hin Hg.
  induction l as [|a l IH]; [by apply elem_of_nil in Hin|].
  simpl in Hnd. apply NoDup_cons in Hnd as [Ha Hnd]. simpl.
  apply elem_of_cons in Hin as [->|Hin].
  - rewrite (proj2 (Hg a) eq_refl). f_equal.
    apply bfilter_none. intros y Hy. destruct (g y) eqn:Hgy; [|done].
    exfalso. apply Ha. apply Hg in Hgy. rewrite <-Hgy.
    apply list_elem_of_fmap. eauto.
  - destruct (g a) eqn:Hga; [|by apply IH].
    exfalso. apply Ha. apply Hg in Hga. rewrite Hga.
    apply list_elem_of_fmap. eauto.
Qed.

End Rows.

(** ** The store under the repositories *)

Lemma withProposals_same (s : Store) :
  withProposals (proposals s) (proposalSeq s) s = s.
Proof. by destruct s. Qed.

Lemma writeRelation_reset (xs : option (list Z)) (links : gset Z) :
  writeRelation (Relation.mk (Some []) (connectIds xs)) links = supplied xs.
Proof.
  unfold writeRelation, supplied, connectIds. simpl.
  destruct xs as [[|x l]|]; simpl; by rewrite (left_id_L ∅ (∪)).
Qed.

Lemma writeRelation_fresh (xs : option (list Z)) :
  writeRelation (Relation.mk None (connectIds xs)) ∅ = supplied xs.
Proof.
  unfold writeRelation, supplied, connectIds. simpl.
  destruct xs as [[|x l]|]; simpl; by rewrite (left_id_L ∅ (∪)).
Qed.

Lemma writeRelation_reset_ids (ids : list Z) (links : gset Z) :
  writeRelation (Relation.mk (Some []) (Some ids)) links = list_to_set ids.
Proof. unfold writeRelation. simpl. by rewrite (left_id_L ∅ (∪)). Qed.

Lemma writeRelation_fresh_ids (ids : list Z) :
  writeRelation (Relation.mk None (Some ids)) ∅ = list_to_set ids.
Proof. unfold writeRelation. simpl. by rewrite (left_id_L ∅ (∪)). Qed.

Lemma snapshot_snapshot (p : Proposal.t) (talk : Talk.t) (body : Body.t) :
  snapshot (snapshot p talk body) talk body = snapshot p talk body.
Proof. unfold snapshot. simpl. by destruct (Body.comments body). Qed.

Lemma bind_ok {A B} (m : M A) (k : A → M B) s a s' :
  m s = (Ok a, s') → bind m k s = k a s'.
Proof. unfold bind. by intros ->. Qed.

Lemma bind_thrown {A B} (m : M A) (k : A → M B) s e s' :
  m s = (Thrown e, s') → bind m k s = (Thrown e, s').
Proof. unfold bind. by intros ->. Qed.

Lemma bind_ret {A B} (a : A) (k : A → M B) s : bind (ret a) k s = k a s.
Proof. done. Qed.

Lemma bind_throw {A B} (e : Exception) (k : A → M B) s :
  bind (throw e) k s = (Thrown e, s).
Proof. done. Qed.

Lemma bind_gets {A B} (f : Store → A) (k : A → M B) s :
  bind (gets f) k s = k (f s) s.
Proof. done. Qed.

Lemma writeProposal_update (talk : Talk.t) (body : Body.t) (q : Proposal.t) :
  writeProposal
    (ProposalData.mk
       (Talk.title talk) (Talk.abstract talk) (Talk.level talk)
       (Talk.language talk) (Talk.references talk) (Body.comments body)
       (Relation.mk (Some []) (Some (map User.id (Talk.speakers talk))))
       (Relation.mk (Some []) (connectIds (Body.formats body)))
       (Relation.mk (Some []) (connectIds (Body.categories body)))) q
  = snapshot q talk body.
Proof.
  unfold writeProposal, snapshot.
  f_equal; [apply writeRelation_reset_ids | apply writeRelation_reset ..].
Qed.

Lemma writeProposal_create (talk : Talk.t) (body : Body.t) (id talkId eventId : Z) :
  writeProposal
    (ProposalData.mk
       (Talk.title talk) (Talk.abstract talk) (Talk.level talk)
       (Talk.language talk) (Talk.references talk) (Body.comments body)
       (Relation.mk None (Some (map User.id (Talk.speakers talk))))
       (Relation.mk None (connectIds (Body.formats body)))
       (Relation.mk None (connectIds (Body.categories body))))
    (Proposal.mk id talkId eventId SUBMITTED "" "" None None None None ∅ ∅ ∅)
  = snapshot
      (Proposal.mk id talkId eventId SUBMITTED "" "" None None None None ∅ ∅ ∅)
      talk body.
Proof.
  unfold writeProposal, snapshot.
  f_equal; [apply writeRelation_fresh_ids | apply writeRelation_fresh ..].
Qed.


Global Instance getUserByUid_reads uid : Reads (getUserByUid uid).
Proof. intros s. by eexists. Qed.

Global Instance getTalk_reads talkId : Reads (getTalk talkId).
Proof. intros s. by eexists. Qed.

Global Instance getEventById_reads eventId : Reads (getEventById eventId).
Proof. intros s. by eexists. Qed.

Global Instance findUserProposalsForEvent_reads eventId userId :
  Reads (findUserProposalsForEvent eventId userId).
Proof. intros s. by eexists. Qed.

Global Instance getProposalForEvent_reads talkId eventId :
  Reads (getProposalForEvent talkId eventId).
Proof. intros s. by eexists. Qed.

(** A handler is run step by step, by rewriting with what the store
    answers. *)
Ltac step_with H :=
  erewrite bind_ok by exact H; cbv beta iota delta [required throwIf negb];
  rewrite ?bind_ret, ?bind_throw.

Ltac step_test H :=
  rewrite H; cbv beta iota delta [required throwIf negb];
  rewrite ?bind_ret, ?bind_throw.

Section ControllerFacts.

Variable isCfpOpened : EventType → option Z → option Z → bool.

Lemma submitTalk_checked req s user talk event :
  Checked isCfpOpened req s user talk event →
  submitTalk isCfpOpened req s =
    match existingProposal req user s with
    | Some p =>
        (Ok tt,
         withProposals
           (map (λ q, if Proposal.id q =? Proposal.id p
                      then snapshot q talk (Request.body req) else q)
                (proposals s))
           (proposalSeq s) s)
    | None =>
        if match Event.maxProposals event with
           | Some m => negb (m =? 0) && (proposalCount req user s =? m)
           | None => false
           end
        then (Thrown (HttpException 403 "Max proposals reached"), s)
        else
          match proposalsFor (Request.talkId req) (Request.eventId req) s with
          | [] =>
              (Ok tt,
               withProposals
                 (proposals s ++
                  [snapshot
                     (Proposal.mk (proposalSeq s) (Request.talkId req)
                        (Request.eventId req) SUBMITTED
                        "" "" None None None None ∅ ∅ ∅)
                     talk (Request.body req)])
                 (proposalSeq s + 1) s)
          | _ :: _ => (Thrown StoreConflict, s)
          end
    end.
Proof.
  intros ((Huser & Htalk & Hspeaker & Hevent & Hcfp) & Hformats & Hcategories).
  unfold submitTalk. cbv zeta.
  step_with Huser. step_with Htalk. step_test Hspeaker.
  step_with Hevent. step_test Hcfp. step_test Hformats. step_test Hcategories.
  unfold findUserProposalsForEvent, existingProposal, proposalCount.
  rewrite bind_gets. unfold findUserProposalsForEvent, gets.
  destruct (find _ _) as [p|] eqn:Hfind.
  - unfold updateProposal, modify.
    do 2 f_equal. apply map_ext. intros q.
    by rewrite writeProposal_update.
  - destruct (match Event.maxProposals event with Some _ => _ | None => _ end);
      [done|].
    unfold createProposal.
    rewrite existsb_bfilter, writeProposal_create.
    fold (proposalsFor (Request.talkId req) (Request.eventId req) s).
    by destruct (proposalsFor _ _ _).
Qed.

(** The checks read the users, the talks and the events only. *)
Lemma Checked_frame req s s' user talk event :
  users s' = users s → talks s' = talks s → events s' = events s →
  Checked isCfpOpened req s user talk event →
  Checked isCfpOpened req s' user talk event.
Proof.
  intros Husers Htalks Hevents.
  unfold Checked, Resolved, getUserByUid, getTalk, getEventById, gets.
  rewrite Husers, Htalks, Hevents.
  intros (([= Huser] & [= Htalk] & ? & [= Hevent] & ?) & ? & ?).
  rewrite Huser, Htalk, Hevent. done.
Qed.

(** Under unique uids, the requester that passes the speaker check is,
    by id, one of the speakers of the talk. *)
Lemma requester_among_speakers req s user talk event :
  NoDup (map User.uid (users s)) →
  Resolved isCfpOpened req s user talk event →
  User.id user ∈ (list_to_set (map User.id (Talk.speakers talk)) : gset Z).
Proof.
  intros Huids ([= Huser] & [= Htalk] & Hspeaker & _).
  apply find_Some_elem in Huser as [Huser Huid%String.eqb_eq].
  apply existsb_true_elem in Hspeaker as (speaker & Hin & Hsp%String.eqb_eq).
  destruct (talks s !! Request.talkId req) as [row|]; [|done].
  injection Htalk as <-.
  pose proof Hin as [Hin' _]%elem_of_bfilter.
  assert (speaker = user) as ->
    by (apply (unique_key_inj User.uid (users s)); congruence).
  apply elem_of_list_to_set, list_elem_of_fmap. eauto.
Qed.

(** Either the shared checks pass, or submission and un-submission both
    throw the failure of the first one that does not, and leave the store
    as it was. *)
Lemma resolution req s :
  (∃ user talk event, Resolved isCfpOpened req s user talk event)
  ∨ (∃ e, e ∈ take 5 checkFailures
          ∧ submitTalk isCfpOpened req s = (Thrown e, s)
          ∧ unsubmitTalk isCfpOpened req s = (Thrown e, s)).
Proof.
  destruct (reads (getUserByUid (Request.uid req)) s) as [[user|] Huser]; last first.
  { right. eexists. split; [|split; unfold submitTalk, unsubmitTalk; cbv zeta;
      by step_with Huser].
    set_solver. }
  destruct (reads (getTalk (Request.talkId req)) s) as [[talk|] Htalk]; last first.
  { right. eexists. split; [|split; unfold submitTalk, unsubmitTalk; cbv zeta;
      step_with Huser; by step_with Htalk].
    set_solver. }
  destruct (existsb (λ speaker, String.eqb (User.uid speaker) (Request.uid req))
              (Talk.speakers talk)) eqn:Hspeaker; last first.
  { right. eexists. split; [|split; unfold submitTalk, unsubmitTalk; cbv zeta;
      step_with Huser; step_with Htalk; by step_test Hspeaker].
    set_solver. }
  destruct (reads (getEventById (Request.eventId req)) s) as [[event|] Hevent];
    last first.
  { right. eexists. split; [|split; unfold submitTalk, unsubmitTalk; cbv zeta;
      step_with Huser; step_with Htalk; step_test Hspeaker; by step_with Hevent].
    set_solver. }
  destruct (isCfpOpened (Event.type event) (Event.cfpStart event)
              (Event.cfpEnd event)) eqn:Hcfp; last first.
  { right. eexists. split; [|split; unfold submitTalk, unsubmitTalk; cbv zeta;
      step_with Huser; step_with Htalk; step_test Hspeaker; step_with Hevent;
      by step_test Hcfp].
    set_solver. }
  left. by exists user, talk, event.
Qed.

(** Either every check passes, or the submission throws the failure of
    the first check that does not, and leaves the store as it was. *)
Lemma submitTalk_checks req s :
  (∃ user talk event, Checked isCfpOpened req s user talk event)
  ∨ (∃ e, e ∈ checkFailures ∧ submitTalk isCfpOpened req s = (Thrown e, s)).
Proof.
  destruct (resolution req s)
    as [(user & talk & event & Hresolved)|(e & He & Hthrown & _)]; last first.
  { right. exists e. split; [|done]. by apply (subseteq_take 5 checkFailures). }
  destruct Hresolved as (Huser & Htalk & Hspeaker & Hevent & Hcfp).
  destruct (Event.formatsRequired event && isEmpty (Body.formats (Request.body req)))
    eqn:Hformats.
  { right. eexists. split; [|unfold submitTalk; cbv zeta;
      step_with Huser; step_with Htalk; step_test Hspeaker; step_with Hevent;
      step_test Hcfp; by step_test Hformats].
    set_solver. }
  destruct (Event.categoriesRequired event
            && isEmpty (Body.categories (Request.body req))) eqn:Hcategories.
  { right. eexists. split; [|unfold submitTalk; cbv zeta;
      step_with Huser; step_with Htalk; step_test Hspeaker; step_with Hevent;
      step_test Hcfp; step_test Hformats; by step_test Hcategories].
    set_solver. }
  left. by exists user, talk, event.
Qed.

(** What an un-submission does once the shared checks have passed. *)
Lemma unsubmitTalk_resolved req s user talk event :
  Resolved isCfpOpened req s user talk event →
  unsubmitTalk isCfpOpened req s =
    match find (λ p, (Proposal.talkId p =? Request.talkId req)
                     && (Proposal.eventId p =? Request.eventId req))
            (proposals s) with
    | Some p =>
        (Ok tt,
         withProposals
           (List.filter (λ q, negb (Proposal.id q =? Proposal.id p)) (proposals s))
           (proposalSeq s) s)
    | None => (Thrown (HttpException 404 "Proposal not found"), s)
    end.
Proof.
  intros (Huser & Htalk & Hspeaker & Hevent & Hcfp).
  unfold unsubmitTalk. cbv zeta.
  step_with Huser. step_with Htalk. step_test Hspeaker.
  step_with Hevent. step_test Hcfp.
  unfold getProposalForEvent. rewrite bind_gets.
  by destruct (find _ _).
Qed.

(** An un-submission that throws leaves the store as it was. *)
Lemma unsubmitTalk_thrown req s e s' :
  unsubmitTalk isCfpOpened req s = (Thrown e, s') → s' = s.
Proof.
  destruct (resolution req s)
    as [(user & talk & event & Hresolved)|(e' & _ & _ & ->)]; [|congruence].
  rewrite (unsubmitTalk_resolved _ _ _ _ _ Hresolved).
  destruct (find _ _); [done | congruence].
Qed.

Lemma existingProposal_Some req user s p :
  existingProposal req user s = Some p →
  p ∈ proposals s
  ∧ Proposal.talkId p = Request.talkId req
  ∧ Proposal.eventId p = Request.eventId req
  ∧ User.id user ∈ Proposal.speakers p.
Proof.
  unfold existingProposal, findUserProposalsForEvent, gets.
  intros [[Hp [Hevent Hspeaker]%andb_true_iff]%elem_of_bfilter Htalk]%find_Some_elem.
  apply Z.eqb_eq in Htalk, Hevent. by apply bool_decide_eq_true in Hspeaker.
Qed.

(** Without a row for the pair there is nothing to update. *)
Lemma existingProposal_no_row req user s :
  proposalsFor (Request.talkId req) (Request.eventId req) s = [] →
  existingProposal req user s = None.
Proof.
  intros Hnone. destruct (existingProposal req user s) as [p|] eqn:Hp; [|done].
  apply existingProposal_Some in Hp as (Hp & Htalk & Hevent & _).
  assert (p ∈ proposalsFor (Request.talkId req) (Request.eventId req) s) as Hin.
  { apply elem_of_bfilter. split; [done|].
    apply andb_true_iff. by rewrite !Z.eqb_eq. }
  rewrite Hnone in Hin. by apply elem_of_nil in Hin.
Qed.

(** A row of the pair that lists the requester and already is the
    snapshot: a submission finds it, it is the only row of the pair, and
    the submission rewrites it to itself. *)
Lemma resubmit_fixed req s user talk event p :
  wfStore s → Checked isCfpOpened req s user talk event →
  p ∈ proposals s →
  Proposal.talkId p = Request.talkId req →
  Proposal.eventId p = Request.eventId req →
  User.id user ∈ Proposal.speakers p →
  snapshot p talk (Request.body req) = p →
  existingProposal req user s = Some p
  ∧ proposalsFor (Request.talkId req) (Request.eventId req) s = [p]
  ∧ submitTalk isCfpOpened req s = (Ok tt, s).
Proof.
  intros (_ & Hids & _ & Hkeys) Hchecked Hp Htalk Hevent Hspeaker Hfixed.
  assert (Hkey : ∀ q, (Proposal.talkId q =? Request.talkId req)
                      && (Proposal.eventId q =? Request.eventId req) = true
                      ↔ (Proposal.talkId q, Proposal.eventId q)
                        = (Proposal.talkId p, Proposal.eventId p)).
  { intros q. rewrite andb_true_iff, !Z.eqb_eq, Htalk, Hevent.
    split; [by intros [-> ->] | by intros [= -> ->]]. }
  assert (Hfound : existingProposal req user s = Some p).
  { unfold existingProposal, findUserProposalsForEvent, gets.
    apply find_unique.
    - apply elem_of_bfilter. split; [done|].
      apply andb_true_iff. split; [by apply Z.eqb_eq | by apply bool_decide_eq_true].
    - by apply Z.eqb_eq.
    - intros q [Hq [Hqe _]%andb_true_iff]%elem_of_bfilter Hqt.
      apply (unique_key_inj _ _ _ _ Hkeys Hq Hp), Hkey.
      by rewrite Hqt, Hqe. }
  split; [done|]. split.
  - by apply (bfilter_unique_key
                (λ q, (Proposal.talkId q, Proposal.eventId q))).
  - rewrite (submitTalk_checked _ _ _ _ _ Hchecked), Hfound.
    rewrite map_rewrite_fixed; [by rewrite withProposals_same|].
    intros q Hq Hid%Z.eqb_eq.
    by rewrite (unique_key_inj _ _ _ _ Hids Hq Hp Hid).
Qed.

(** A submission keeps the constraints of the schema. *)
Lemma submitTalk_wf req s r s' :
  wfStore s → submitTalk isCfpOpened req s = (r, s') → wfStore s'.
Proof.
  intros Hwf.
  destruct (submitTalk_checks req s)
    as [(user & talk & event & Hchecked)|(e & _ & ->)]; [|by intros [= _ <-]].
  rewrite (submitTalk_checked _ _ _ _ _ Hchecked).
  pose proof Hwf as (Huids & Hids & Hseq & Hkeys).
  destruct (existingProposal req user s) as [p|].
  - intros [= _ <-]. unfold wfStore. simpl.
    rewrite !map_rewrite_key by done. split_and!; [done..| |done].
    intros q (q0 & Hq0 & ->)%elem_of_map_rewrite.
    destruct (_ =? _); exact (Hseq q0 Hq0).
  - destruct (match Event.maxProposals event with Some _ => _ | None => _ end);
      [by intros [= _ <-]|].
    destruct (proposalsFor _ _ _) eqn:Hrows; [|by intros [= _ <-]].
    intros [= _ <-]. unfold wfStore. simpl. rewrite !map_app. simpl.
    split_and!; [done| | |].
    + apply NoDup_app. split_and!; [done| |apply NoDup_singleton].
      intros id (q & -> & Hq)%list_elem_of_fmap Hid%list_elem_of_singleton.
      specialize (Hseq q Hq). simpl in Hid. lia.
    + intros q [Hq| ->%list_elem_of_singleton]%elem_of_app; simpl.
      * specialize (Hseq q Hq). lia.
      * lia.
    + apply NoDup_app. split_and!; [done| |apply NoDup_singleton].
      intros key (q & -> & Hq)%list_elem_of_fmap [= Ht He]%list_elem_of_singleton.
      assert (q ∈ proposalsFor (Request.talkId req) (Request.eventId req) s) as Hin.
      { apply elem_of_bfilter. split; [done|].
        apply andb_true_iff. by rewrite !Z.eqb_eq. }
      rewrite Hrows in Hin. by apply elem_of_nil in Hin.
Qed.

(** A submission that succeeds leaves a row of the pair that lists the
    requester and is the snapshot of the talk and the body; the checks
    still pass on the store it leaves. *)
Lemma submitTalk_ok_row req s s' :
  wfStore s → submitTalk isCfpOpened req s = (Ok tt, s') →
  ∃ user talk event p,
    Checked isCfpOpened req s' user talk event
    ∧ p ∈ proposals s'
    ∧ Proposal.talkId p = Request.talkId req
    ∧ Proposal.eventId p = Request.eventId req
    ∧ User.id user ∈ Proposal.speakers p
    ∧ snapshot p talk (Request.body req) = p.
Proof.
  intros Hwf.
  destruct (submitTalk_checks req s)
    as [(user & talk & event & Hchecked)|(e & _ & ->)]; [|congruence].
  pose proof (requester_among_speakers _ _ _ _ _ (proj1 Hwf) (proj1 Hchecked))
    as Hspeaker.
  rewrite (submitTalk_checked _ _ _ _ _ Hchecked).
  destruct (existingProposal req user s) as [p|] eqn:Hp.
  - intros [= <-]. apply existingProposal_Some in Hp as (Hp & Htalk & Hevent & _).
    exists user, talk, event, (snapshot p talk (Request.body req)).
    split_and!; [by apply (Checked_frame req s)| |done..|apply snapshot_snapshot].
    simpl. apply list_elem_of_fmap. exists p. by rewrite Z.eqb_refl.
  - destruct (match Event.maxProposals event with Some _ => _ | None => _ end);
      [congruence|].
    destruct (proposalsFor _ _ _); [|congruence].
    intros [= <-].
    exists user, talk, event,
      (snapshot
         (Proposal.mk (proposalSeq s) (Request.talkId req) (Request.eventId req)
            SUBMITTED "" "" None None None None ∅ ∅ ∅)
         talk (Request.body req)).
    split_and!; [by apply (Checked_frame req s)| |done..|apply snapshot_snapshot].
    simpl. apply elem_of_app. right. by apply list_elem_of_singleton.
Qed.

(** A submission that throws leaves the store as it was. *)
Lemma submitTalk_thrown req s e s' :
  submitTalk isCfpOpened req s = (Thrown e, s') → s' = s.
Proof.
  destruct (submitTalk_checks req s)
    as [(user & talk & event & Hchecked)|(e' & _ & ->)]; [|congruence].
  rewrite (submitTalk_checked _ _ _ _ _ Hchecked).
  destruct (existingProposal req user s); [done|].
  destruct (match Event.maxProposals event with Some _ => _ | None => _ end);
    [congruence|].
  destruct (proposalsFor _ _ _); [done | congruence].
Qed.

End ControllerFacts.

(** ** Submission and un-submission *)

Section Submission.

Variable isCfpOpened : EventType → option Z → option Z → bool.

(** C3. The checks of [submitTalk] run in order, each with its own
    failure: unresolvable requester (404 "User not found"), missing talk
    (404 "Talk not found"), requester not among the speakers of the talk
    (403 "Forbidden"), missing event (404 "Event not found"), closed CFP
    (403 "CFP is closed"), formats required and none supplied (400
    "Formats are required for the event"), categories required and none
    supplied (400 "Categories are required for the event"). Each failure
    leaves the store as it was, the seven failures are pairwise distinct,
    and a submission that changes the store has passed every check. *)
Theorem submitTalk_checks_in_order (req : Request.t) (s : Store) :
  let uid := Request.uid req in
  let talkId := Request.talkId req in
  let eventId := Request.eventId req in
  let body := Request.body req in
  let fails e := submitTalk isCfpOpened req s = (Thrown e, s) in
  (getUserByUid uid s = (Ok None, s) →
     fails (HttpException 404 "User not found"))
  ∧ (∀ user, getUserByUid uid s = (Ok (Some user), s) →
     (getTalk talkId s = (Ok None, s) →
        fails (HttpException 404 "Talk not found"))
     ∧ (∀ talk, getTalk talkId s = (Ok (Some talk), s) →
        (existsb (λ speaker, String.eqb (User.uid speaker) uid)
           (Talk.speakers talk) = false →
           fails (HttpException 403 "Forbidden"))
        ∧ (existsb (λ speaker, String.eqb (User.uid speaker) uid)
             (Talk.speakers talk) = true →
           (getEventById eventId s = (Ok None, s) →
              fails (HttpException 404 "Event not found"))
           ∧ (∀ event, getEventById eventId s = (Ok (Some event), s) →
              (isCfpOpened (Event.type event) (Event.cfpStart event)
                 (Event.cfpEnd event) = false →
                 fails (HttpException 403 "CFP is closed"))
              ∧ (isCfpOpened (Event.type event) (Event.cfpStart event)
                   (Event.cfpEnd event) = true →
                 (Event.formatsRequired event = true →
                  isEmpty (Body.formats body) = true →
                    fails (HttpException 400 "Formats are required for the event"))
                 ∧ (Event.formatsRequired event && isEmpty (Body.formats body) = false →
                    Event.categoriesRequired event = true →
                    isEmpty (Body.categories body) = true →
                      fails (HttpException 400 "Categories are required for the event")))))))
  ∧ NoDup checkFailures
  ∧ (∀ r s', submitTalk isCfpOpened req s = (r, s') → s' ≠ s →
       ∃ user talk event, Checked isCfpOpened req s user talk event).
Proof.
  cbv zeta. split; [|split; [|split]].
  - intros Huser. unfold submitTalk; cbv zeta. by step_with Huser.
  - intros user Huser. split.
    { intros Htalk. unfold submitTalk; cbv zeta.
      step_with Huser. by step_with Htalk. }
    intros talk Htalk. split.
    { intros Hspeaker. unfold submitTalk; cbv zeta.
      step_with Huser. step_with Htalk. by step_test Hspeaker. }
    intros Hspeaker. split.
    { intros Hevent. unfold submitTalk; cbv zeta.
      step_with Huser. step_with Htalk. step_test Hspeaker. by step_with Hevent. }
    intros event Hevent. split.
    { intros Hcfp. unfold submitTalk; cbv zeta.
      step_with Huser. step_with Htalk. step_test Hspeaker. step_with Hevent.
      by step_test Hcfp. }
    intros Hcfp. split.
    { intros Hrequired Hempty. unfold submitTalk; cbv zeta.
      step_with Huser. step_with Htalk. step_test Hspeaker. step_with Hevent.
      step_test Hcfp. rewrite Hrequired, Hempty. done. }
    intros Hformats Hrequired Hempty. unfold submitTalk; cbv zeta.
    step_with Huser. step_with Htalk. step_test Hspeaker. step_with Hevent.
    step_test Hcfp. step_test Hformats. rewrite Hrequired, Hempty. done.
  - apply (bool_decide_unpack (NoDup checkFailures)). by vm_compute.
  - intros r s' Hrun Hchanged.
    destruct (submitTalk_checks isCfpOpened req s) as [|(e & _ & Hthrown)]; [done|].
    congruence.
Qed.

(** C4. When the CFP of the event is not open, submission and
    un-submission by a resolvable requester of an existing talk both fail
    with status 403, whether or not the requester is a speaker of the
    talk: "CFP is closed" for a speaker, "Forbidden" otherwise. The store
    is left as it was. *)
Theorem cfp_closed_forbidden (req : Request.t) (s : Store)
    (user : User.t) (talk : Talk.t) (event : Event.t) :
  getUserByUid (Request.uid req) s = (Ok (Some user), s) →
  getTalk (Request.talkId req) s = (Ok (Some talk), s) →
  getEventById (Request.eventId req) s = (Ok (Some event), s) →
  isCfpOpened (Event.type event) (Event.cfpStart event) (Event.cfpEnd event)
    = false →
  let message :=
    if existsb (λ speaker, String.eqb (User.uid speaker) (Request.uid req))
         (Talk.speakers talk)
    then "CFP is closed" else "Forbidden" in
  submitTalk isCfpOpened req s = (Thrown (HttpException 403 message), s)
  ∧ unsubmitTalk isCfpOpened req s = (Thrown (HttpException 403 message), s).
Proof.
  intros Huser Htalk Hevent Hcfp. cbv zeta.
  destruct (existsb _ _) eqn:Hspeaker.
  - split; unfold submitTalk, unsubmitTalk; cbv zeta;
      step_with Huser; step_with Htalk; step_test Hspeaker; step_with Hevent;
      by step_test Hcfp.
  - split; unfold submitTalk, unsubmitTalk; cbv zeta;
      step_with Huser; step_with Htalk; by step_test Hspeaker.
Qed.

(** C6. [unsubmitTalk] resolves the requester, the talk and the event
    with the failures of a submission, in the same order, checks that the
    requester is a speaker of the talk and that the CFP is open, then
    fails with 404 "Proposal not found" when there is no proposal for
    (talkId, eventId), and otherwise removes that row from the table:
    the other rows stay, and under the constraints of the schema no row
    is left for the pair. Every failure leaves the store as it was. *)
Theorem unsubmitTalk_checks_then_deletes (req : Request.t) (s : Store) :
  let uid := Request.uid req in
  let talkId := Request.talkId req in
  let eventId := Request.eventId req in
  let fails e := unsubmitTalk isCfpOpened req s = (Thrown e, s) in
  (getUserByUid uid s = (Ok None, s) →
     fails (HttpException 404 "User not found"))
  ∧ (∀ user, getUserByUid uid s = (Ok (Some user), s) →
     (getTalk talkId s = (Ok None, s) →
        fails (HttpException 404 "Talk not found"))
     ∧ (∀ talk, getTalk talkId s = (Ok (Some talk), s) →
        (existsb (λ speaker, String.eqb (User.uid speaker) uid)
           (Talk.speakers talk) = false →
           fails (HttpException 403 "Forbidden"))
        ∧ (existsb (λ speaker, String.eqb (User.uid speaker) uid)
             (Talk.speakers talk) = true →
           (getEventById eventId s = (Ok None, s) →
              fails (HttpException 404 "Event not found"))
           ∧ (∀ event, getEventById eventId s = (Ok (Some event), s) →
              (isCfpOpened (Event.type event) (Event.cfpStart event)
                 (Event.cfpEnd event) = false →
                 fails (HttpException 403 "CFP is closed"))
              ∧ (isCfpOpened (Event.type event) (Event.cfpStart event)
                   (Event.cfpEnd event) = true →
                 (getProposalForEvent talkId eventId s = (Ok None, s) →
                    fails (HttpException 404 "Proposal not found"))
                 ∧ (∀ p, getProposalForEvent talkId eventId s = (Ok (Some p), s) →
                    ∃ s',
                      unsubmitTalk isCfpOpened req s = (Ok tt, s')
                      ∧ s' = withProposals (proposals s') (proposalSeq s) s
                      ∧ (∀ q, q ∈ proposals s' ↔
                              q ∈ proposals s ∧ Proposal.id q ≠ Proposal.id p)
                      ∧ (wfStore s →
                         getProposalForEvent talkId eventId s' = (Ok None, s')
                         ∧ length (proposals s) = S (length (proposals s')))))))))
  ∧ (∀ e s', unsubmitTalk isCfpOpened req s = (Thrown e, s') → s' = s)
  ∧ ((∀ user talk event, ¬ Resolved isCfpOpened req s user talk event) →
     unsubmitTalk isCfpOpened req s = submitTalk isCfpOpened req s).
Proof.
  cbv zeta. split; [|split; [|split]].
  - intros Huser. unfold unsubmitTalk; cbv zeta. by step_with Huser.
  - intros user Huser. split.
    { intros Htalk. unfold unsubmitTalk; cbv zeta.
      step_with Huser. by step_with Htalk. }
    intros talk Htalk. split.
    { intros Hspeaker. unfold unsubmitTalk; cbv zeta.
      step_with Huser. step_with Htalk. by step_test Hspeaker. }
    intros Hspeaker. split.
    { intros Hevent. unfold unsubmitTalk; cbv zeta.
      step_with Huser. step_with Htalk. step_test Hspeaker. by step_with Hevent. }
    intros event Hevent. split.
    { intros Hcfp. unfold unsubmitTalk; cbv zeta.
      step_with Huser. step_with Htalk. step_test Hspeaker. step_with Hevent.
      by step_test Hcfp. }
    intros Hcfp.
    assert (Hresolved : Resolved isCfpOpened req s user talk event) by done.
    rewrite (unsubmitTalk_resolved _ _ _ _ _ _ Hresolved).
    unfold getProposalForEvent, gets. split.
    { intros [= ->]. done. }
    intros p [= Hfind]. rewrite Hfind. eexists. split; [done|].
    apply find_Some_elem in Hfind as [Hp Hkey]. simpl.
    split; [done|]. split.
    { intros q. rewrite elem_of_bfilter, negb_true_iff, Z.eqb_neq. done. }
    intros (_ & Hids & _ & Hkeys). split.
    + f_equal. f_equal. apply find_None_intro.
      intros q [Hq Hid]%elem_of_bfilter.
      destruct ((Proposal.talkId q =? _) && _) eqn:Hq'; [|done].
      exfalso. apply negb_true_iff, Z.eqb_neq in Hid. apply Hid. f_equal.
      apply (unique_key_inj _ _ _ _ Hkeys Hq Hp).
      apply andb_true_iff in Hkey as [?%Z.eqb_eq ?%Z.eqb_eq].
      apply andb_true_iff in Hq' as [?%Z.eqb_eq ?%Z.eqb_eq].
      congruence.
    + rewrite (bfilter_split_length (λ q, Proposal.id q =? Proposal.id p)
                 (proposals s)).
      rewrite (bfilter_unique_key Proposal.id _ _ p Hids Hp); [done|].
      intros q. apply Z.eqb_eq.
  - apply unsubmitTalk_thrown.
  - intros Hnone.
    destruct (resolution isCfpOpened req s)
      as [(user & talk & event & Hresolved)|(e & _ & -> & ->)]; [|done].
    by destruct (Hnone user talk event).
Qed.

(** C5. When [submitTalk] finds a proposal of the talk among the
    requester's proposals for the event, it succeeds and replaces that
    row in place by the snapshot: title, abstract, level, language and
    references of the current talk, the comments of the body (a string or
    null; a body without a comments key leaves the stored comments), and
    as speakers, formats and categories exactly the speakers of the talk
    and the supplied ids, whatever the row held before. The id, talk, event
    and status of the row stay, no row is added and the id counter does
    not move. *)
Theorem submitTalk_updates_in_place (req : Request.t) (s : Store)
    (user : User.t) (talk : Talk.t) (event : Event.t) (p : Proposal.t) :
  wfStore s →
  Checked isCfpOpened req s user talk event →
  existingProposal req user s = Some p →
  let body := Request.body req in
  let p' :=
    Proposal.mk (Proposal.id p) (Proposal.talkId p) (Proposal.eventId p)
      (Proposal.status p)
      (Talk.title talk) (Talk.abstract talk) (Talk.level talk)
      (Talk.language talk) (Talk.references talk)
      (match Body.comments body with
       | Some comments => comments
       | None => Proposal.comments p
       end)
      (list_to_set (map User.id (Talk.speakers talk)))
      (list_to_set (List.filter Boolean (default [] (Body.formats body))))
      (list_to_set (List.filter Boolean (default [] (Body.categories body)))) in
  ∃ i s',
    proposals s !! i = Some p
    ∧ submitTalk isCfpOpened req s = (Ok tt, s')
    ∧ s' = withProposals (<[i := p']> (proposals s)) (proposalSeq s) s
    ∧ length (proposals s') = length (proposals s).
Proof.
  intros (_ & Hids & _) Hchecked Hfound. cbv zeta.
  pose proof Hfound as (Hp & _)%existingProposal_Some.
  apply list_elem_of_lookup_1 in Hp as [i Hi].
  exists i. eexists. split; [done|].
  rewrite (submitTalk_checked _ _ _ _ _ _ Hchecked), Hfound.
  split; [done|].
  rewrite (map_rewrite_insert Proposal.id _ _ _ i p Hids Hi)
    by (intros q; apply Z.eqb_eq).
  split; [done|]. simpl. by rewrite length_insert.
Qed.

(** C2, as amended. For an event whose [maxProposals] is defined and not
    zero, a requester who passes the checks and already has exactly that
    many proposals for the event fails with 403 "Max proposals reached"
    when the talk has no proposal for the event, and the store is left as
    it was; a submission that finds a proposal to update succeeds, however
    many proposals the requester has. *)
Theorem max_proposals_cap (req : Request.t) (s : Store)
    (user : User.t) (talk : Talk.t) (event : Event.t) :
  Checked isCfpOpened req s user talk event →
  (∀ m, Event.maxProposals event = Some m → m ≠ 0 →
        proposalCount req user s = m →
        proposalsFor (Request.talkId req) (Request.eventId req) s = [] →
        submitTalk isCfpOpened req s
        = (Thrown (HttpException 403 "Max proposals reached"), s))
  ∧ (∀ p, existingProposal req user s = Some p →
          ∃ s', submitTalk isCfpOpened req s = (Ok tt, s')).
Proof.
  intros Hchecked. rewrite (submitTalk_checked _ _ _ _ _ _ Hchecked). split.
  - intros m -> Hm Hcount Hnone.
    rewrite (existingProposal_no_row _ _ _ Hnone), Hcount, Z.eqb_refl.
    by apply Z.eqb_neq in Hm as ->.
  - intros p ->. by eexists.
Qed.

(** C10. For a submission that passes the checks of a talk without a
    proposal for the event, the cap throws 403 "Max proposals reached"
    exactly when [maxProposals] is defined, not zero, and equal to the
    number of proposals the requester has for the event. In every other
    case, in particular when [maxProposals] is null or undefined, is
    zero, or is strictly below that number, the submission succeeds and
    appends a new row, the snapshot of the talk under a fresh id. *)
Theorem cap_check_is_strict_equality (req : Request.t) (s : Store)
    (user : User.t) (talk : Talk.t) (event : Event.t) :
  Checked isCfpOpened req s user talk event →
  proposalsFor (Request.talkId req) (Request.eventId req) s = [] →
  let capped :=
    ∃ m, Event.maxProposals event = Some m ∧ m ≠ 0
         ∧ proposalCount req user s = m in
  let created :=
    submitTalk isCfpOpened req s
    = (Ok tt,
       withProposals
         (proposals s ++
          [snapshot
             (Proposal.mk (proposalSeq s) (Request.talkId req)
                (Request.eventId req) SUBMITTED
                "" "" None None None None ∅ ∅ ∅)
             talk (Request.body req)])
         (proposalSeq s + 1) s) in
  (capped ↔
     submitTalk isCfpOpened req s
     = (Thrown (HttpException 403 "Max proposals reached"), s))
  ∧ (¬ capped → created)
  ∧ (Event.maxProposals event = None → created)
  ∧ (Event.maxProposals event = Some 0 → created)
  ∧ (∀ m, Event.maxProposals event = Some m →
          m < proposalCount req user s → created).
Proof.
  intros Hchecked Hnone. cbv zeta.
  rewrite (submitTalk_checked _ _ _ _ _ _ Hchecked).
  rewrite (existingProposal_no_row _ _ _ Hnone), Hnone.
  assert (Hcap :
    (∃ m, Event.maxProposals event = Some m ∧ m ≠ 0
          ∧ proposalCount req user s = m)
    ↔ match Event.maxProposals event with
      | Some m => negb (m =? 0) && (proposalCount req user s =? m)
      | None => false
      end = true).
  { destruct (Event.maxProposals event) as [m|].
    - rewrite andb_true_iff, negb_true_iff, Z.eqb_neq, Z.eqb_eq. split.
      + by intros (? & [= <-] & ? & ?).
      + intros []. by exists m.
    - split; [by intros (? & ? & _) | done]. }
  assert (Hfree :
    ¬ (∃ m, Event.maxProposals event = Some m ∧ m ≠ 0
            ∧ proposalCount req user s = m) →
    (if match Event.maxProposals event with
        | Some m => negb (m =? 0) && (proposalCount req user s =? m)
        | None => false
        end
     then (Thrown (HttpException 403 "Max proposals reached"), s)
     else (Ok tt,
           withProposals
             (proposals s ++
              [snapshot
                 (Proposal.mk (proposalSeq s) (Request.talkId req)
                    (Request.eventId req) SUBMITTED
                    "" "" None None None None ∅ ∅ ∅)
                 talk (Request.body req)])
             (proposalSeq s + 1) s))
    = (Ok tt,
       withProposals
         (proposals s ++
          [snapshot
             (Proposal.mk (proposalSeq s) (Request.talkId req)
                (Request.eventId req) SUBMITTED
                "" "" None None None None ∅ ∅ ∅)
             talk (Request.body req)])
         (proposalSeq s + 1) s)).
  { rewrite Hcap. by destruct (match Event.maxProposals event with
                               | Some _ => _ | None => _ end). }
  split_and!.
  - rewrite Hcap.
    destruct (match Event.maxProposals event with Some _ => _ | None => _ end);
      split; congruence.
  - done.
  - intros Hmax. apply Hfree. intros (m & ? & _). congruence.
  - intros Hmax. apply Hfree. intros (m & ? & ? & _). congruence.
  - intros m Hmax Hlt. apply Hfree. intros (m' & ? & _ & ?).
    assert (m' = m) by congruence. lia.
Qed.

End Submission.

(** ** Organizer endpoints *)

(** The event access check answers or throws, and never writes. *)
Lemma checkEventAccess_run mutation uid eventId s :
  checkEventAccess mutation uid eventId s =
    (match find (λ u, String.eqb (User.uid u) uid) (users s) with
     | None => Thrown (HttpException 404 "User not found")
     | Some user =>
         match events s !! eventId with
         | None => Thrown (HttpException 404 "Event not found")
         | Some event =>
             if bool_decide (Event.ownerId event = Some (User.id user))
             then Ok user
             else
               match
                 match Event.organizationId event with
                 | Some organizationId => members s !! (User.id user, organizationId)
                 | None => None
                 end
               with
               | None => Thrown (HttpException 403 "Forbidden")
               | Some role =>
                   if mutation && isReviewer role
                   then Thrown (HttpException 403 "Forbidden")
                   else Ok user
               end
         end
     end, s).
Proof.
  unfold checkEventAccess, getUserByUid, getEventById.
  rewrite bind_gets. destruct (find _ _) as [user|]; [|done].
  cbv beta iota delta [required]. rewrite bind_ret, bind_gets.
  destruct (events s !! eventId) as [event|]; [|done].
  cbv beta iota. rewrite bind_ret. case_bool_decide; [done|].
  rewrite bind_gets.
  destruct (match Event.organizationId event with Some _ => _ | None => _ end)
    as [role|]; [|done].
  cbv beta iota. rewrite bind_ret.
  by destruct (mutation && isReviewer role).
Qed.

(** C9. The gate of a mutation endpoint, here PATCH
    /api/organizer/events/:id/proposals, applies its rules in order: no
    identity is 401; an identity that resolves to no user is 404 "User not
    found"; a missing event is 404; a user who is neither the owner of the
    event nor a member of its organization is 403; a member whose role is
    REVIEWER is 403. Each failure leaves the store as it was. The owner
    of the event succeeds, and the response is 204. *)
Theorem organizer_gate_on_mutation (identity : option string) (eventId : Z)
    (status : ProposalStatus) (s : Store) :
  let run := updateEventProposals identity eventId status s in
  (identity = None → run = (Thrown (HttpException 401 "Unauthenticated"), s))
  ∧ (∀ uid, identity = Some uid →
     (getUserByUid uid s = (Ok None, s) →
        run = (Thrown (HttpException 404 "User not found"), s))
     ∧ (∀ user, getUserByUid uid s = (Ok (Some user), s) →
        (getEventById eventId s = (Ok None, s) →
           run = (Thrown (HttpException 404 "Event not found"), s))
        ∧ (∀ event, getEventById eventId s = (Ok (Some event), s) →
           (Event.ownerId event = Some (User.id user) →
              ∃ s', run = (Ok tt, s') ∧ responseStatus (fst run) = Some 204)
           ∧ (Event.ownerId event ≠ Some (User.id user) →
              (Event.organizationId event = None →
                 run = (Thrown (HttpException 403 "Forbidden"), s))
              ∧ (∀ organizationId,
                   Event.organizationId event = Some organizationId →
                   (members s !! (User.id user, organizationId) = None →
                      run = (Thrown (HttpException 403 "Forbidden"), s))
                   ∧ (members s !! (User.id user, organizationId) = Some REVIEWER →
                      run = (Thrown (HttpException 403 "Forbidden"), s)
                      ∧ responseStatus (fst run) = Some 403)))))).
Proof.
  cbv zeta. unfold updateEventProposals, authenticate. split.
  { by intros ->. }
  intros uid ->. simpl. rewrite bind_ret.
  pose proof (checkEventAccess_run true uid eventId s) as Haccess.
  unfold getUserByUid, getEventById, gets. split.
  { intros [= Huser]. rewrite Huser in Haccess. by erewrite bind_thrown. }
  intros user [= Huser]. rewrite Huser in Haccess. split.
  { intros [= Hevent]. rewrite Hevent in Haccess. by erewrite bind_thrown. }
  intros event [= Hevent]. rewrite Hevent in Haccess. split.
  { intros Howner. rewrite bool_decide_eq_true_2 in Haccess by done.
    erewrite bind_ok by done. by eexists. }
  intros Howner. rewrite bool_decide_eq_false_2 in Haccess by done. split.
  { intros Horga. rewrite Horga in Haccess. by erewrite bind_thrown. }
  intros organizationId Horga. rewrite Horga in Haccess. split.
  { intros Hrole. rewrite Hrole in Haccess. by erewrite bind_thrown. }
  intros Hrole. rewrite Hrole in Haccess. by erewrite bind_thrown.
Qed.

(** C7. For a requester the gate lets through, updating or deleting a
    message fails with 404 "Message not found", not with 403, both when
    there is no such message and when the message is of another user; the
    store is left as it was. *)
Theorem message_of_another_user_not_found (mutation : bool)
    (identity : option string) (uid : string) (user : User.t)
    (eventId proposalId messageId : Z) (text : string) (s : Store) :
  identity = Some uid →
  checkEventAccess mutation uid eventId s = (Ok user, s) →
  text ≠ "" →
  (messages s !! messageId = None
   ∨ ∃ m, messages s !! messageId = Some m ∧ Message.userId m ≠ User.id user) →
  let notFound := (Thrown (HttpException 404 "Message not found"), s) in
  updateMessage mutation identity eventId proposalId messageId (Some text) s
  = notFound
  ∧ deleteMessage mutation identity eventId proposalId messageId s = notFound
  ∧ responseStatus (fst notFound) = Some 404.
Proof.
  intros -> Haccess Htext Hmessage. cbv zeta.
  assert (Hfind : findUserMessage proposalId messageId user s
                  = (Thrown (HttpException 404 "Message not found"), s)).
  { unfold findUserMessage. rewrite bind_gets.
    destruct Hmessage as [->|(m & -> & Hother)]; [done|].
    by apply Z.eqb_neq in Hother as ->. }
  unfold updateMessage, deleteMessage, authenticate. simpl.
  rewrite !bind_ret. split_and!; [|by step_with Haccess; erewrite bind_thrown|done].
  destruct text as [|c text]; [done|]. simpl. rewrite bind_ret.
  step_with Haccess. by erewrite bind_thrown.
Qed.

Section RateFacts.

Variable validRating : Z → bool.
Variable validFeeling : string → bool.

(** C8. With 3 an accepted rating and NEUTRAL a defined feeling, rating a
    proposal 3 / NEUTRAL succeeds and the rating of (user, proposal)
    reads back as that; rating it null / null afterwards succeeds and
    removes the row: the read-back is absent and the key is no longer in
    the table. *)
Theorem rate_round_trip (proposalId userId : Z) (s : Store) :
  validRating 3 = true →
  validFeeling "NEUTRAL" = true →
  ∃ s1 s2,
    rate validRating validFeeling proposalId userId (Some 3) (Some "NEUTRAL") s
    = (Ok tt, s1)
    ∧ findRating userId proposalId s1 = Some (Rating.mk (Some 3) (Some "NEUTRAL"))
    ∧ rate validRating validFeeling proposalId userId None None s1 = (Ok tt, s2)
    ∧ findRating userId proposalId s2 = None
    ∧ (userId, proposalId) ∉ dom (ratings s2).
Proof.
  intros Hrating Hfeeling. unfold rate, validRate. simpl.
  rewrite Hrating, Hfeeling. simpl. rewrite !bind_ret.
  do 2 eexists. split_and!; [done| |done| |].
  - unfold findRating. simpl. apply lookup_insert_eq.
  - unfold findRating. simpl. apply lookup_delete_eq.
  - simpl. rewrite not_elem_of_dom. apply lookup_delete_eq.
Qed.

End RateFacts.

(** ** The scenario, run

    With a cap of one proposal: talk A is submitted and creates proposal
    1; talk B is then refused; talk A, once edited, is submitted again and
    proposal 1 takes the new abstract. *)

Example first_submission_creates :
  submitTalk (isCfpOpenedAt 15) (submission "ben" 10 100) scenario
  = (Ok tt, afterTalkA).
Proof. vm_compute. reflexivity. Qed.

Example second_talk_is_capped :
  submitTalk (isCfpOpenedAt 15) (submission "ben" 11 100) afterTalkA
  = (Thrown (HttpException 403 "Max proposals reached"), afterTalkA).
Proof. vm_compute. reflexivity. Qed.

Example resubmission_takes_the_edit :
  submitTalk (isCfpOpenedAt 15) (submission "ben" 10 100) afterEdit
  = (Ok tt,
     withProposals
       [Proposal.mk 1 10 100 SUBMITTED "Talk A" "A better abstract"
          (Some "BEGINNER") (Some "en") None (Some "Please") {[1]} {[3; 4]} ∅]
       2 afterEdit).
Proof. vm_compute. reflexivity. Qed.

Lemma scenario_wf : wfStore scenario.
Proof.
  unfold wfStore. simpl. split_and!.
  - apply (bool_decide_unpack _). by vm_compute.
  - apply NoDup_nil_2.
  - intros p Hp. by apply elem_of_nil in Hp.
  - apply NoDup_nil_2.
Defined.

Lemma afterTalkA_wf : wfStore afterTalkA.
Proof.
  unfold wfStore. simpl. split_and!.
  - apply (bool_decide_unpack _). by vm_compute.
  - apply NoDup_singleton.
  - intros p ->%list_elem_of_singleton. reflexivity.
  - apply NoDup_singleton.
Defined.

Lemma afterEdit_wf : wfStore afterEdit.
Proof. exact afterTalkA_wf. Defined.

(** ** The statements at the scenario *)

Lemma max_proposals_cap_witness :
  submitTalk (isCfpOpenedAt 15) (submission "ben" 11 100) afterTalkA
  = (Thrown (HttpException 403 "Max proposals reached"), afterTalkA)
  ∧ ∃ s', submitTalk (isCfpOpenedAt 15) (submission "ben" 10 100) afterTalkA
          = (Ok tt, s').
Proof.
  split.
  - apply (proj1 (max_proposals_cap (isCfpOpenedAt 15) (submission "ben" 11 100)
                    afterTalkA ben talkB benEvent
                    ltac:(repeat split; vm_compute; reflexivity)) 1).
    + reflexivity.
    + lia.
    + vm_compute. reflexivity.
    + vm_compute. reflexivity.
  - apply (proj2 (max_proposals_cap (isCfpOpenedAt 15) (submission "ben" 10 100)
                    afterTalkA ben talkA benEvent
                    ltac:(repeat split; vm_compute; reflexivity)) proposalA).
    vm_compute. reflexivity.
Defined.

(** C2, as stated: a defined cap of zero, met exactly by a requester
    without proposals, does not stop a new submission. *)
Lemma max_proposals_cap_as_stated_fails :
  ¬ (∀ (isCfpOpened : EventType → option Z → option Z → bool)
       (req : Request.t) (s : Store) (user : User.t) (talk : Talk.t)
       (event : Event.t) (m : Z),
       Checked isCfpOpened req s user talk event →
       Event.maxProposals event = Some m →
       proposalCount req user s = m →
       proposalsFor (Request.talkId req) (Request.eventId req) s = [] →
       submitTalk isCfpOpened req s
       = (Thrown (HttpException 403 "Max proposals reached"), s)).
Proof.
  intros Hclaim.
  assert (Hchecked : Checked (isCfpOpenedAt 15) (submission "ben" 10 102)
                       scenario ben talkA orgaEvent)
    by (repeat split; vm_compute; reflexivity).
  specialize (Hclaim _ _ _ _ _ _ 0 Hchecked eq_refl eq_refl eq_refl).
  vm_compute in Hclaim. discriminate Hclaim.
Qed.

Lemma submitTalk_checks_in_order_witness :
  submitTalk (isCfpOpenedAt 15) (submission "nobody" 10 100) scenario
  = (Thrown (HttpException 404 "User not found"), scenario)
  ∧ submitTalk (isCfpOpenedAt 15) (submission "other" 10 100) scenario
    = (Thrown (HttpException 403 "Forbidden"), scenario)
  ∧ submitTalk (isCfpOpenedAt 15)
      (Request.mk "ben" 10 100 (Body.mk None (Some []) None)) scenario
    = (Thrown (HttpException 400 "Formats are required for the event"), scenario).
Proof.
  split_and!.
  - apply (proj1 (submitTalk_checks_in_order (isCfpOpenedAt 15)
                    (submission "nobody" 10 100) scenario)).
    reflexivity.
  - destruct (submitTalk_checks_in_order (isCfpOpenedAt 15)
                (submission "other" 10 100) scenario) as (_ & Huser & _).
    destruct (Huser other eq_refl) as (_ & Htalk).
    destruct (Htalk talkA eq_refl) as (Hspeaker & _).
    apply Hspeaker. reflexivity.
  - destruct (submitTalk_checks_in_order (isCfpOpenedAt 15)
                (Request.mk "ben" 10 100 (Body.mk None (Some []) None)) scenario)
      as (_ & Huser & _).
    destruct (Huser ben eq_refl) as (_ & Htalk).
    destruct (Htalk talkA eq_refl) as (_ & Hspeaker).
    destruct (Hspeaker eq_refl) as (_ & Hevent).
    destruct (Hevent benEvent eq_refl) as (_ & Hcfp).
    destruct (Hcfp eq_refl) as (Hformats & _).
    apply Hformats; reflexivity.
Defined.

Lemma cfp_closed_forbidden_witness :
  submitTalk (isCfpOpenedAt 15) (submission "ben" 10 101) afterTalkA
  = (Thrown (HttpException 403 "CFP is closed"), afterTalkA)
  ∧ unsubmitTalk (isCfpOpenedAt 15) (submission "ben" 10 101) afterTalkA
    = (Thrown (HttpException 403 "CFP is closed"), afterTalkA).
Proof.
  apply (cfp_closed_forbidden (isCfpOpenedAt 15) (submission "ben" 10 101)
           afterTalkA ben talkA pastEvent); reflexivity.
Defined.

Lemma submitTalk_updates_in_place_witness :
  (∃ i s',
     proposals afterEdit !! i = Some proposalA
     ∧ submitTalk (isCfpOpenedAt 15) (submission "ben" 10 100) afterEdit = (Ok tt, s')
     ∧ s' = withProposals
              (<[i := Proposal.mk 1 10 100 SUBMITTED "Talk A" "A better abstract"
                        (Some "BEGINNER") (Some "en") None (Some "Please")
                        (list_to_set [1]) (list_to_set [3; 4]) (list_to_set [])]>
                 (proposals afterEdit))
              2 afterEdit
     ∧ length (proposals s') = length (proposals afterEdit))
  ∧ (∃ i s',
       proposals afterEdit !! i = Some proposalA
       ∧ submitTalk (isCfpOpenedAt 15) silentSubmission afterEdit = (Ok tt, s')
       ∧ s' = withProposals
                (<[i := Proposal.mk 1 10 100 SUBMITTED "Talk A" "A better abstract"
                          (Some "BEGINNER") (Some "en") None (Some "Please")
                          (list_to_set [1]) (list_to_set [3]) (list_to_set [])]>
                   (proposals afterEdit))
                2 afterEdit
       ∧ length (proposals s') = length (proposals afterEdit)).
Proof.
  split.
  - apply (submitTalk_updates_in_place (isCfpOpenedAt 15) (submission "ben" 10 100)
             afterEdit ben
             (Talk.mk "Talk A" "A better abstract" (Some "BEGINNER") (Some "en")
                None [ben])
             benEvent proposalA).
    + exact afterEdit_wf.
    + repeat split; vm_compute; reflexivity.
    + vm_compute. reflexivity.
  - apply (submitTalk_updates_in_place (isCfpOpenedAt 15) silentSubmission
             afterEdit ben
             (Talk.mk "Talk A" "A better abstract" (Some "BEGINNER") (Some "en")
                None [ben])
             benEvent proposalA).
    + exact afterEdit_wf.
    + repeat split; vm_compute; reflexivity.
    + vm_compute. reflexivity.
Defined.

Lemma unsubmitTalk_checks_then_deletes_witness :
  unsubmitTalk (isCfpOpenedAt 15) (submission "ben" 10 100) scenario
  = (Thrown (HttpException 404 "Proposal not found"), scenario)
  ∧ ∃ s', unsubmitTalk (isCfpOpenedAt 15) (submission "ben" 10 100) afterTalkA
          = (Ok tt, s')
          ∧ getProposalForEvent 10 100 s' = (Ok None, s')
          ∧ length (proposals afterTalkA) = S (length (proposals s')).
Proof.
  split.
  - destruct (unsubmitTalk_checks_then_deletes (isCfpOpenedAt 15)
                (submission "ben" 10 100) scenario) as (_ & Huser & _).
    destruct (Huser ben eq_refl) as (_ & Htalk).
    destruct (Htalk talkA eq_refl) as (_ & Hspeaker).
    destruct (Hspeaker eq_refl) as (_ & Hevent).
    destruct (Hevent benEvent eq_refl) as (_ & Hcfp).
    destruct (Hcfp eq_refl) as (Hnone & _).
    apply Hnone. reflexivity.
  - destruct (unsubmitTalk_checks_then_deletes (isCfpOpenedAt 15)
                (submission "ben" 10 100) afterTalkA) as (_ & Huser & _).
    destruct (Huser ben eq_refl) as (_ & Htalk).
    destruct (Htalk talkA eq_refl) as (_ & Hspeaker).
    destruct (Hspeaker eq_refl) as (_ & Hevent).
    destruct (Hevent benEvent eq_refl) as (_ & Hcfp).
    destruct (Hcfp eq_refl) as (_ & Hsome).
    destruct (Hsome proposalA eq_refl) as (s' & Hrun & _ & _ & Hwf).
    exists s'. split; [exact Hrun|]. exact (Hwf afterTalkA_wf).
Defined.

Lemma message_of_another_user_not_found_witness :
  updateMessage true (Some "ben") 100 1 50 (Some "Goodbye world") scenario
  = (Thrown (HttpException 404 "Message not found"), scenario)
  ∧ deleteMessage true (Some "ben") 100 1 50 scenario
    = (Thrown (HttpException 404 "Message not found"), scenario)
  ∧ responseStatus (Thrown (HttpException 404 "Message not found")) = Some 404.
Proof.
  apply (message_of_another_user_not_found true (Some "ben") "ben" ben
           100 1 50 "Goodbye world" scenario).
  - reflexivity.
  - vm_compute. reflexivity.
  - discriminate.
  - right. exists (Message.mk 2 1 "Hello world"). split; [reflexivity|].
    simpl. lia.
Defined.

Lemma rate_round_trip_witness :
  ∃ s1 s2,
    rate ratingInRange feelingKnown 1 1 (Some 3) (Some "NEUTRAL") afterTalkA
    = (Ok tt, s1)
    ∧ findRating 1 1 s1 = Some (Rating.mk (Some 3) (Some "NEUTRAL"))
    ∧ rate ratingInRange feelingKnown 1 1 None None s1 = (Ok tt, s2)
    ∧ findRating 1 1 s2 = None
    ∧ (1, 1) ∉ dom (ratings s2).
Proof.
  apply (rate_round_trip ratingInRange feelingKnown 1 1 afterTalkA).
  - reflexivity.
  - vm_compute. reflexivity.
Defined.

Lemma organizer_gate_on_mutation_witness :
  updateEventProposals None 100 ACCEPTED afterTalkA
  = (Thrown (HttpException 401 "Unauthenticated"), afterTalkA)
  ∧ updateEventProposals (Some "ben") 102 ACCEPTED afterTalkA
    = (Thrown (HttpException 403 "Forbidden"), afterTalkA)
  ∧ ∃ s', updateEventProposals (Some "ben") 100 ACCEPTED afterTalkA = (Ok tt, s')
          ∧ responseStatus (fst (updateEventProposals (Some "ben") 100 ACCEPTED
                                   afterTalkA)) = Some 204.
Proof.
  split_and!.
  - apply (proj1 (organizer_gate_on_mutation None 100 ACCEPTED afterTalkA)).
    reflexivity.
  - destruct (organizer_gate_on_mutation (Some "ben") 102 ACCEPTED afterTalkA)
      as (_ & Hidentity).
    destruct (Hidentity "ben" eq_refl) as (_ & Huser).
    destruct (Huser ben eq_refl) as (_ & Hevent).
    destruct (Hevent orgaEvent eq_refl) as (_ & Hother).
    destruct (Hother ltac:(discriminate)) as (_ & Horga).
    destruct (Horga 7 eq_refl) as (_ & Hreviewer).
    apply Hreviewer. vm_compute. reflexivity.
  - destruct (organizer_gate_on_mutation (Some "ben") 100 ACCEPTED afterTalkA)
      as (_ & Hidentity).
    destruct (Hidentity "ben" eq_refl) as (_ & Huser).
    destruct (Huser ben eq_refl) as (_ & Hevent).
    destruct (Hevent benEvent eq_refl) as (Howner & _).
    apply Howner. reflexivity.
Defined.

Lemma cap_check_is_strict_equality_witness :
  submitTalk (isCfpOpenedAt 15) (submission "ben" 10 102) scenario
  = (Ok tt,
     withProposals
       (proposals scenario ++
        [snapshot
           (Proposal.mk 1 10 102 SUBMITTED "" "" None None None None ∅ ∅ ∅)
           talkA (Request.body (submission "ben" 10 102))])
       2 scenario).
Proof.
  destruct (cap_check_is_strict_equality (isCfpOpenedAt 15)
              (submission "ben" 10 102) scenario ben talkA orgaEvent
              ltac:(repeat split; vm_compute; reflexivity) eq_refl)
    as (_ & _ & _ & Hzero & _).
  apply Hzero. reflexivity.
Defined.

(** ** The other talk handlers *)

Lemma withTalks_same (s : Store) : withTalks (talks s) s = s.
Proof. by destruct s. Qed.

(** The speakers a talk is returned with are the users its row links. *)
Lemma getTalk_speakers talkId s talk :
  getTalk talkId s = (Ok (Some talk), s) →
  ∃ row, talks s !! talkId = Some row
         ∧ Talk.speakers talk
           = List.filter (λ u, bool_decide (User.id u ∈ TalkRow.speakerIds row))
               (users s).
Proof.
  unfold getTalk, gets. intros [= Htalk].
  destruct (talks s !! talkId) as [row|]; [|done].
  injection Htalk as <-. by exists row.
Qed.

Lemma getTalk_lookup talkId s row :
  talks s !! talkId = Some row →
  getTalk talkId s
  = (Ok (Some (Talk.mk (TalkRow.title row) (TalkRow.abstract row)
                 (TalkRow.level row) (TalkRow.language row)
                 (TalkRow.references row)
                 (List.filter
                    (λ u, bool_decide (User.id u ∈ TalkRow.speakerIds row))
                    (users s)))), s).
Proof. unfold getTalk, gets. by intros ->. Qed.

Lemma getTalk_missing talkId s :
  talks s !! talkId = None → getTalk talkId s = (Ok None, s).
Proof. unfold getTalk, gets. by intros ->. Qed.

(** A linked user is found by id among the speakers exactly when a user
    of that id exists and the row links the id. *)
Lemma speaker_by_id (ids : gset Z) (us : list User.t) (id : Z) :
  existsb (λ speaker, User.id speaker =? id)
    (List.filter (λ u, bool_decide (User.id u ∈ ids)) us) = true
  ↔ id ∈ ids ∧ ∃ u, u ∈ us ∧ User.id u = id.
Proof.
  split.
  - intros (u & [Hu Hin%bool_decide_eq_true]%elem_of_bfilter & Hid%Z.eqb_eq)
      %existsb_true_elem.
    subst id. eauto.
  - intros (Hin & u & Hu & <-). apply existsb_exists. exists u.
    rewrite <-list_elem_of_In, elem_of_bfilter, Z.eqb_refl.
    by rewrite bool_decide_eq_true.
Qed.

Global Instance getUser_reads id : Reads (usersRepository.getUser id).
Proof. intros s. by eexists. Qed.

Lemma getUser_found id s u :
  usersRepository.getUser id s = (Ok (Some u), s) → u ∈ users s ∧ User.id u = id.
Proof.
  unfold usersRepository.getUser, gets.
  intros [= [Hu Hid%Z.eqb_eq]%find_Some_elem]. done.
Qed.

(** Linking more users keeps every speaker a speaker. *)
Lemma speaker_by_uid_mono (ids ids' : gset Z) (us : list User.t) (uid : string) :
  ids ⊆ ids' →
  existsb (λ speaker, String.eqb (User.uid speaker) uid)
    (List.filter (λ u, bool_decide (User.id u ∈ ids)) us) = true →
  existsb (λ speaker, String.eqb (User.uid speaker) uid)
    (List.filter (λ u, bool_decide (User.id u ∈ ids')) us) = true.
Proof.
  intros Hsub (u & [Hu Hin%bool_decide_eq_true]%elem_of_bfilter & Huid)
    %existsb_true_elem.
  apply existsb_exists. exists u.
  rewrite <-list_elem_of_In, elem_of_bfilter, bool_decide_eq_true.
  split_and!; [done| |done]. by apply Hsub.
Qed.

Lemma alter_found {V} (f : V → V) (m : gmap Z V) (i : Z) (x : V) :
  m !! i = Some x → alter f i m = <[i := f x]> m.
Proof.
  intros Hx. apply map_eq. intros j.
  rewrite lookup_alter, lookup_insert. case_decide; [|done].
  subst j. by rewrite Hx.
Qed.

Section TalkHandlerFacts.

Variable TalkBody : Type.
Variable writeBody : TalkBody → TalkRow.t → TalkRow.t.

(** The guard the four handlers share: a missing talk is 404, a requester
    who is not one of its speakers is 403, and in both cases the store is
    left as it was. *)
Lemma talk_guard_fails (uid : string) (talkId : Z) (s : Store) :
  (∃ row,
     talks s !! talkId = Some row
     ∧ existsb (λ speaker, String.eqb (User.uid speaker) uid)
         (List.filter (λ u, bool_decide (User.id u ∈ TalkRow.speakerIds row))
            (users s)) = true)
  ∨ (∃ e, (∀ body, updateTalk TalkBody writeBody uid talkId body s = (Thrown e, s))
          ∧ deleteTalk uid talkId s = (Thrown e, s)
          ∧ (∀ speakerId,
               removeSpeakerFromTalk TalkBody writeBody uid talkId speakerId s
               = (Thrown e, s))
          ∧ (∀ speakerId, ∃ e',
               addSpeakerToTalk TalkBody writeBody uid talkId speakerId s
               = (Thrown e', s))).
Proof.
  destruct (talks s !! talkId) as [row|] eqn:Hrow.
  - pose proof (getTalk_lookup _ _ _ Hrow) as Htalk.
    destruct (existsb (λ speaker, String.eqb (User.uid speaker) uid)
                (List.filter (λ u, bool_decide (User.id u ∈ TalkRow.speakerIds row))
                   (users s))) eqn:Hspeaker.
    { left. by exists row. }
    right. exists (HttpException 403 "Forbidden"). split_and!.
    + intros body. unfold updateTalk. step_with Htalk. cbn [Talk.speakers]. by step_test Hspeaker.
    + unfold deleteTalk. step_with Htalk. cbn [Talk.speakers]. by step_test Hspeaker.
    + intros speakerId. unfold removeSpeakerFromTalk.
      step_with Htalk. cbn [Talk.speakers]. by step_test Hspeaker.
    + intros speakerId. unfold addSpeakerToTalk. step_with Htalk.
      destruct (reads (usersRepository.getUser speakerId) s) as [[sp|] Hsp].
      * step_with Hsp. cbn [Talk.speakers]. step_test Hspeaker. by eexists.
      * step_with Hsp. by eexists.
  - pose proof (getTalk_missing _ _ Hrow) as Htalk.
    right. exists (HttpException 404 "Talk not found"). split_and!.
    + intros body. unfold updateTalk. by step_with Htalk.
    + unfold deleteTalk. by step_with Htalk.
    + intros speakerId. unfold removeSpeakerFromTalk. by step_with Htalk.
    + intros speakerId. eexists. unfold addSpeakerToTalk. by step_with Htalk.
Qed.

(** What a successful [addSpeakerToTalk] found and wrote. *)
Lemma addSpeakerToTalk_ok uid talkId speakerId s s' :
  addSpeakerToTalk TalkBody writeBody uid talkId speakerId s = (Ok tt, s') →
  ∃ row speaker,
    talks s !! talkId = Some row
    ∧ speaker ∈ users s ∧ User.id speaker = speakerId
    ∧ (speakerId ∉ TalkRow.speakerIds row)
    ∧ existsb (λ speaker, String.eqb (User.uid speaker) uid)
        (List.filter (λ u, bool_decide (User.id u ∈ TalkRow.speakerIds row))
           (users s)) = true
    ∧ s' = withTalks
             (<[talkId :=
                  TalkRow.mk (TalkRow.title row) (TalkRow.abstract row)
                    (TalkRow.level row) (TalkRow.language row)
                    (TalkRow.references row)
                    (TalkRow.speakerIds row ∪ {[speakerId]})]> (talks s)) s.
Proof.
  unfold addSpeakerToTalk.
  destruct (talks s !! talkId) as [row|] eqn:Hrow; last first.
  { pose proof (getTalk_missing _ _ Hrow) as Htalk. step_with Htalk. done. }
  pose proof (getTalk_lookup _ _ _ Hrow) as Htalk. step_with Htalk.
  destruct (reads (usersRepository.getUser speakerId) s) as [[sp|] Hsp]; last first.
  { step_with Hsp. done. }
  step_with Hsp. simpl.
  destruct (existsb (λ speaker, String.eqb (User.uid speaker) uid) _) eqn:Hspeaker;
    simpl; rewrite ?bind_ret, ?bind_throw; [|done].
  destruct (existsb (λ speaker, User.id speaker =? speakerId) _) eqn:Halready;
    simpl; rewrite ?bind_ret, ?bind_throw; [done|].
  intros [= <-]. apply getUser_found in Hsp as [Hsp Hid].
  exists row, sp. split_and!; [done..| | done |].
  - intros Hin. apply not_true_iff_false in Halready. apply Halready.
    apply speaker_by_id. eauto.
  - rewrite (alter_found _ _ _ _ Hrow). simpl.
    by rewrite (right_id_L ∅ (∪)).
Qed.

(** What a successful [removeSpeakerFromTalk] found and wrote. *)
Lemma removeSpeakerFromTalk_ok uid talkId speakerId s s' :
  removeSpeakerFromTalk TalkBody writeBody uid talkId speakerId s = (Ok tt, s') →
  ∃ row,
    talks s !! talkId = Some row
    ∧ speakerId ∈ TalkRow.speakerIds row
    ∧ existsb (λ speaker, String.eqb (User.uid speaker) uid)
        (List.filter (λ u, bool_decide (User.id u ∈ TalkRow.speakerIds row))
           (users s)) = true
    ∧ s' = withTalks
             (<[talkId :=
                  TalkRow.mk (TalkRow.title row) (TalkRow.abstract row)
                    (TalkRow.level row) (TalkRow.language row)
                    (TalkRow.references row)
                    (TalkRow.speakerIds row ∖ {[speakerId]})]> (talks s)) s.
Proof.
  unfold removeSpeakerFromTalk.
  destruct (talks s !! talkId) as [row|] eqn:Hrow; last first.
  { pose proof (getTalk_missing _ _ Hrow) as Htalk. step_with Htalk. done. }
  pose proof (getTalk_lookup _ _ _ Hrow) as Htalk. step_with Htalk. simpl.
  destruct (existsb (λ speaker, String.eqb (User.uid speaker) uid) _) eqn:Hspeaker;
    simpl; rewrite ?bind_ret, ?bind_throw; [|done].
  destruct (existsb (λ speaker, User.id speaker =? speakerId) _) eqn:Hexists;
    simpl; rewrite ?bind_ret, ?bind_throw; [|done].
  intros [= <-]. apply speaker_by_id in Hexists as [Hin _].
  exists row. split_and!; [done..|].
  rewrite (alter_found _ _ _ _ Hrow). simpl.
  by rewrite (right_id_L ∅ (∪)).
Qed.

End TalkHandlerFacts.

Section TalkHandlerTheorems.

Variable TalkBody : Type.
Variable writeBody : TalkBody → TalkRow.t → TalkRow.t.
Variable isCfpOpened : EventType → option Z → option Z → bool.

(** X1. [addSpeakerToTalk] checks in this order: missing talk (404 "Talk
    not found"), no user of the given id (404 "Speaker not found"),
    requester not among the speakers of the talk (403 "Forbidden"), user
    already among them (409 "Speaker already attached to the talk"). The
    existence of the user is thus answered before the requester's right
    to the talk. Past the checks it links the user to the talk and leaves
    the content of the talk as it was; every failure leaves the store as
    it was. *)
Theorem addSpeakerToTalk_checks_in_order (uid : string) (talkId speakerId : Z)
    (s : Store) :
  let run := addSpeakerToTalk TalkBody writeBody uid talkId speakerId s in
  (getTalk talkId s = (Ok None, s) →
     run = (Thrown (HttpException 404 "Talk not found"), s))
  ∧ (∀ talk, getTalk talkId s = (Ok (Some talk), s) →
     (usersRepository.getUser speakerId s = (Ok None, s) →
        run = (Thrown (HttpException 404 "Speaker not found"), s))
     ∧ (∀ speaker, usersRepository.getUser speakerId s = (Ok (Some speaker), s) →
        (existsb (λ speaker, String.eqb (User.uid speaker) uid)
           (Talk.speakers talk) = false →
           run = (Thrown (HttpException 403 "Forbidden"), s))
        ∧ (existsb (λ speaker, String.eqb (User.uid speaker) uid)
             (Talk.speakers talk) = true →
           (existsb (λ speaker, User.id speaker =? speakerId)
              (Talk.speakers talk) = true →
              run = (Thrown (HttpException 409
                               "Speaker already attached to the talk"), s))
           ∧ (existsb (λ speaker, User.id speaker =? speakerId)
                (Talk.speakers talk) = false →
              ∃ row,
                talks s !! talkId = Some row
                ∧ run
                  = (Ok tt,
                     withTalks
                       (<[talkId :=
                            TalkRow.mk (TalkRow.title row) (TalkRow.abstract row)
                              (TalkRow.level row) (TalkRow.language row)
                              (TalkRow.references row)
                              (TalkRow.speakerIds row ∪ {[speakerId]})]>
                          (talks s)) s)))))
  ∧ (∀ e s', run = (Thrown e, s') → s' = s).
Proof.
  cbv zeta. unfold addSpeakerToTalk. split; [|split].
  - intros Htalk. by step_with Htalk.
  - intros talk Htalk. step_with Htalk. split.
    { intros Hsp. by step_with Hsp. }
    intros sp Hsp. step_with Hsp. split.
    { intros Hspeaker. by step_test Hspeaker. }
    intros Hspeaker. step_test Hspeaker. split.
    { intros Halready. by step_test Halready. }
    intros Halready. step_test Halready.
    apply getTalk_speakers in Htalk as (row & Hrow & _).
    exists row. split; [done|].
    unfold talksRepository.updateTalk, modify.
    rewrite (alter_found _ _ _ _ Hrow). simpl.
    by rewrite (right_id_L ∅ (∪)).
  - intros e s'.
    destruct (reads (getTalk talkId) s) as [[talk|] Htalk]; step_with Htalk;
      [|congruence].
    destruct (reads (usersRepository.getUser speakerId) s) as [[sp|] Hsp];
      step_with Hsp; [|congruence].
    destruct (existsb (λ speaker, String.eqb (User.uid speaker) uid)
                (Talk.speakers talk)); simpl; rewrite ?bind_ret, ?bind_throw;
      [|congruence].
    destruct (existsb (λ speaker, User.id speaker =? speakerId)
                (Talk.speakers talk)); simpl; rewrite ?bind_ret, ?bind_throw;
      [congruence|done].
Qed.

(** X2. [removeSpeakerFromTalk] checks in this order: missing talk (404
    "Talk not found"), requester not among the speakers of the talk (403
    "Forbidden"), id not among the speakers (409 "Speaker does not belong
    to the talk"). Past the checks it unlinks the id from the talk and
    leaves the content of the talk as it was; every failure leaves the
    store as it was. *)
Theorem removeSpeakerFromTalk_checks_in_order (uid : string)
    (talkId speakerId : Z) (s : Store) :
  let run := removeSpeakerFromTalk TalkBody writeBody uid talkId speakerId s in
  (getTalk talkId s = (Ok None, s) →
     run = (Thrown (HttpException 404 "Talk not found"), s))
  ∧ (∀ talk, getTalk talkId s = (Ok (Some talk), s) →
     (existsb (λ speaker, String.eqb (User.uid speaker) uid)
        (Talk.speakers talk) = false →
        run = (Thrown (HttpException 403 "Forbidden"), s))
     ∧ (existsb (λ speaker, String.eqb (User.uid speaker) uid)
          (Talk.speakers talk) = true →
        (existsb (λ speaker, User.id speaker =? speakerId)
           (Talk.speakers talk) = false →
           run = (Thrown (HttpException 409
                            "Speaker does not belong to the talk"), s))
        ∧ (existsb (λ speaker, User.id speaker =? speakerId)
             (Talk.speakers talk) = true →
           ∃ row,
             talks s !! talkId = Some row
             ∧ run
               = (Ok tt,
                  withTalks
                    (<[talkId :=
                         TalkRow.mk (TalkRow.title row) (TalkRow.abstract row)
                           (TalkRow.level row) (TalkRow.language row)
                           (TalkRow.references row)
                           (TalkRow.speakerIds row ∖ {[speakerId]})]>
                       (talks s)) s))))
  ∧ (∀ e s', run = (Thrown e, s') → s' = s).
Proof.
  cbv zeta. unfold removeSpeakerFromTalk. split; [|split].
  - intros Htalk. by step_with Htalk.
  - intros talk Htalk. step_with Htalk. split.
    { intros Hspeaker. by step_test Hspeaker. }
    intros Hspeaker. step_test Hspeaker. split.
    { intros Hexists. by step_test Hexists. }
    intros Hexists. step_test Hexists.
    apply getTalk_speakers in Htalk as (row & Hrow & _).
    exists row. split; [done|].
    unfold talksRepository.updateTalk, modify.
    rewrite (alter_found _ _ _ _ Hrow). simpl.
    by rewrite (right_id_L ∅ (∪)).
  - intros e s'.
    destruct (reads (getTalk talkId) s) as [[talk|] Htalk]; step_with Htalk;
      [|congruence].
    destruct (existsb (λ speaker, String.eqb (User.uid speaker) uid)
                (Talk.speakers talk)); simpl; rewrite ?bind_ret, ?bind_throw;
      [|congruence].
    destruct (existsb (λ speaker, User.id speaker =? speakerId)
                (Talk.speakers talk)); simpl; rewrite ?bind_ret, ?bind_throw;
      [done|congruence].
Qed.

(** X3. Adding a speaker and then removing the same one, by the same
    requester, succeeds and gives back the store as it was before the
    two. *)
Theorem add_then_remove_speaker (uid : string) (talkId speakerId : Z)
    (s s1 : Store) :
  addSpeakerToTalk TalkBody writeBody uid talkId speakerId s = (Ok tt, s1) →
  removeSpeakerFromTalk TalkBody writeBody uid talkId speakerId s1 = (Ok tt, s).
Proof.
  intros (row & sp & Hrow & Hsp & Hid & Hnotin & Hspeaker & ->)%addSpeakerToTalk_ok.
  set (row1 := TalkRow.mk _ _ _ _ _ (TalkRow.speakerIds row ∪ {[speakerId]})).
  assert (Hrow1 : talks (withTalks (<[talkId := row1]> (talks s)) s) !! talkId
                  = Some row1) by apply lookup_insert_eq.
  unfold removeSpeakerFromTalk.
  pose proof (getTalk_lookup _ _ _ Hrow1) as Htalk. step_with Htalk.
  cbn [Talk.speakers users withTalks TalkRow.speakerIds row1].
  rewrite (speaker_by_uid_mono (TalkRow.speakerIds row)
             (TalkRow.speakerIds row ∪ {[speakerId]}) _ _
             ltac:(set_solver) Hspeaker).
  rewrite (proj2 (speaker_by_id _ _ speakerId)) by (split; [set_solver|eauto]).
  cbv beta iota delta [throwIf negb]. rewrite !bind_ret.
  unfold talksRepository.updateTalk, modify. rewrite (alter_found _ _ _ _ Hrow1).
  cbn [talks withTalks]. rewrite insert_insert_eq.
  unfold withTalks. cbn. f_equal. destruct s as [us ts es ps seq ms rs msgs].
  cbn in *. f_equal. apply insert_id. rewrite Hrow. f_equal.
  destruct row as [t a l g r ids]. cbn. f_equal.
  rewrite (right_id_L ∅ (∪)). apply set_eq. intros id.
  rewrite elem_of_difference, elem_of_union, elem_of_singleton.
  split.
  - intros Hin. split; [by left|]. by intros ->.
  - intros [[Hin| ->] Hne]; done.
Qed.

(** X4. Adding the same speaker a second time fails with 409 "Speaker
    already attached to the talk" and leaves the store as the first
    addition left it. *)
Theorem add_speaker_twice_conflicts (uid : string) (talkId speakerId : Z)
    (s s1 : Store) :
  addSpeakerToTalk TalkBody writeBody uid talkId speakerId s = (Ok tt, s1) →
  addSpeakerToTalk TalkBody writeBody uid talkId speakerId s1
  = (Thrown (HttpException 409 "Speaker already attached to the talk"), s1).
Proof.
  intros (row & sp & Hrow & Hsp & Hid & Hnotin & Hspeaker & ->)%addSpeakerToTalk_ok.
  set (row1 := TalkRow.mk _ _ _ _ _ (TalkRow.speakerIds row ∪ {[speakerId]})).
  assert (Hrow1 : talks (withTalks (<[talkId := row1]> (talks s)) s) !! talkId
                  = Some row1) by apply lookup_insert_eq.
  unfold addSpeakerToTalk.
  pose proof (getTalk_lookup _ _ _ Hrow1) as Htalk. step_with Htalk.
  assert (Huser : usersRepository.getUser speakerId
                    (withTalks (<[talkId := row1]> (talks s)) s)
                  = (Ok (Some sp), withTalks (<[talkId := row1]> (talks s)) s)
                  ∨ ∃ sp', usersRepository.getUser speakerId
                             (withTalks (<[talkId := row1]> (talks s)) s)
                           = (Ok (Some sp'),
                              withTalks (<[talkId := row1]> (talks s)) s)).
  { right. unfold usersRepository.getUser, gets. cbn [users withTalks].
    destruct (find _ _) as [sp'|] eqn:Hfind; [by eexists|].
    apply find_None_elem with (x := sp) in Hfind; [|done].
    apply Z.eqb_neq in Hfind. done. }
  destruct Huser as [Huser|[sp' Huser]]; step_with Huser.
  all: cbn [Talk.speakers users withTalks TalkRow.speakerIds row1].
  all: rewrite (speaker_by_uid_mono (TalkRow.speakerIds row)
                  (TalkRow.speakerIds row ∪ {[speakerId]}) _ _
                  ltac:(set_solver) Hspeaker).
  all: rewrite (proj2 (speaker_by_id _ _ speakerId)) by (split; [set_solver|eauto]).
  all: done.
Qed.

(** X5. Under unique uids, a speaker who removes themself from a talk
    is locked out of it: their updates, deletions and removals on the
    talk, and their submissions and un-submissions of it to any event,
    fail with 403 "Forbidden" and leave the store as it is. *)
Theorem removed_speaker_is_locked_out (uid : string) (talkId speakerId : Z)
    (user : User.t) (s s1 : Store) :
  NoDup (map User.uid (users s)) →
  getUserByUid uid s = (Ok (Some user), s) →
  User.id user = speakerId →
  removeSpeakerFromTalk TalkBody writeBody uid talkId speakerId s = (Ok tt, s1) →
  let forbidden := (Thrown (HttpException 403 "Forbidden"), s1) in
  (∀ body, updateTalk TalkBody writeBody uid talkId body s1 = forbidden)
  ∧ deleteTalk uid talkId s1 = forbidden
  ∧ (∀ id, removeSpeakerFromTalk TalkBody writeBody uid talkId id s1 = forbidden)
  ∧ (∀ eventId body,
       submitTalk isCfpOpened (Request.mk uid talkId eventId body) s1 = forbidden
       ∧ unsubmitTalk isCfpOpened (Request.mk uid talkId eventId body) s1
         = forbidden).
Proof.
  intros Huids [= Huser] Hid
    (row & Hrow & Hin & Hspeaker & ->)%removeSpeakerFromTalk_ok.
  cbv zeta.
  set (row1 := TalkRow.mk _ _ _ _ _ (TalkRow.speakerIds row ∖ {[speakerId]})).
  set (s1 := withTalks (<[talkId := row1]> (talks s)) s).
  assert (Hrow1 : talks s1 !! talkId = Some row1) by apply lookup_insert_eq.
  pose proof (getTalk_lookup _ _ _ Hrow1) as Htalk.
  assert (Huser1 : getUserByUid uid s1 = (Ok (Some user), s1)).
  { unfold getUserByUid, gets. cbn [users s1 withTalks]. by rewrite Huser. }
  assert (Hout : existsb (λ speaker, String.eqb (User.uid speaker) uid)
                   (List.filter
                      (λ u, bool_decide (User.id u ∈ TalkRow.speakerIds row1))
                      (users s1)) = false).
  { apply not_true_iff_false.
    intros (u & [Hu Hlinked%bool_decide_eq_true]%elem_of_bfilter
              & Huid%String.eqb_eq)%existsb_true_elem.
    apply find_Some_elem in Huser as [Huser Huid'%String.eqb_eq].
    change (users s1) with (users s) in Hu.
    assert (u = user) as ->
      by (apply (unique_key_inj User.uid (users s)); [done..|congruence]).
    cbn in Hlinked. apply elem_of_difference in Hlinked as [_ Hne].
    apply Hne, elem_of_singleton. done. }
  split_and!.
  - intros body. unfold updateTalk. step_with Htalk.
    cbn [Talk.speakers]. by step_test Hout.
  - unfold deleteTalk. step_with Htalk. cbn [Talk.speakers]. by step_test Hout.
  - intros id. unfold removeSpeakerFromTalk. step_with Htalk.
    cbn [Talk.speakers]. by step_test Hout.
  - intros eventId body. split; unfold submitTalk, unsubmitTalk; cbv zeta;
      cbn [Request.uid Request.talkId Request.eventId Request.body];
      step_with Huser1; step_with Htalk; cbn [Talk.speakers]; by step_test Hout.
Qed.

(** X6. Nothing keeps the last speaker of a talk from being removed: once
    the only linked speaker is removed, the talk is returned without
    speakers, and for every requester its update, deletion and speaker
    removal fail with 403 "Forbidden". *)
Theorem last_speaker_removed_orphans_talk (uid : string) (talkId speakerId : Z)
    (row : TalkRow.t) (s s1 : Store) :
  talks s !! talkId = Some row →
  TalkRow.speakerIds row = {[speakerId]} →
  removeSpeakerFromTalk TalkBody writeBody uid talkId speakerId s = (Ok tt, s1) →
  (∃ talk, getTalk talkId s1 = (Ok (Some talk), s1) ∧ Talk.speakers talk = [])
  ∧ ∀ requester,
      let forbidden := (Thrown (HttpException 403 "Forbidden"), s1) in
      (∀ body, updateTalk TalkBody writeBody requester talkId body s1 = forbidden)
      ∧ deleteTalk requester talkId s1 = forbidden
      ∧ (∀ id, removeSpeakerFromTalk TalkBody writeBody requester talkId id s1
               = forbidden).
Proof.
  intros Hrow Honly (row' & Hrow' & _ & _ & ->)%removeSpeakerFromTalk_ok.
  assert (row' = row) as -> by congruence.
  set (row1 := TalkRow.mk _ _ _ _ _ (TalkRow.speakerIds row ∖ {[speakerId]})).
  set (s1 := withTalks (<[talkId := row1]> (talks s)) s).
  assert (Hrow1 : talks s1 !! talkId = Some row1) by apply lookup_insert_eq.
  pose proof (getTalk_lookup _ _ _ Hrow1) as Htalk.
  assert (Hnone : List.filter
                    (λ u, bool_decide (User.id u ∈ TalkRow.speakerIds row1))
                    (users s1) = []).
  { apply bfilter_none. intros u _. apply bool_decide_eq_false.
    cbn. rewrite Honly. intros [? ?]%elem_of_difference. done. }
  rewrite Hnone in Htalk. split; [by eexists|].
  intros requester. cbv zeta. split_and!.
  - intros body. unfold updateTalk. by step_with Htalk.
  - unfold deleteTalk. by step_with Htalk.
  - intros id. unfold removeSpeakerFromTalk. by step_with Htalk.
Qed.

(** X7. The talk handlers write for speakers only: whenever [updateTalk],
    [deleteTalk], [addSpeakerToTalk] or [removeSpeakerFromTalk] changes
    the store, the talk existed and the requester was one of its
    speakers. *)
Theorem talk_mutation_by_speakers_only (uid : string) (talkId : Z)
    (s s' : Store) (r : Result unit) :
  (∃ body, updateTalk TalkBody writeBody uid talkId body s = (r, s'))
  ∨ deleteTalk uid talkId s = (r, s')
  ∨ (∃ speakerId,
       addSpeakerToTalk TalkBody writeBody uid talkId speakerId s = (r, s'))
  ∨ (∃ speakerId,
       removeSpeakerFromTalk TalkBody writeBody uid talkId speakerId s = (r, s')) →
  s' ≠ s →
  ∃ talk,
    getTalk talkId s = (Ok (Some talk), s)
    ∧ existsb (λ speaker, String.eqb (User.uid speaker) uid)
        (Talk.speakers talk) = true.
Proof.
  intros Hrun Hchanged.
  destruct (talk_guard_fails TalkBody writeBody uid talkId s)
    as [(row & Hrow & Hspeaker)|(e & Hupdate & Hdelete & Hremove & Hadd)].
  { eexists. split; [by apply getTalk_lookup | done]. }
  exfalso. apply Hchanged.
  destruct Hrun as [[body Hrun]|[Hrun|[[id Hrun]|[id Hrun]]]].
  - rewrite Hupdate in Hrun. congruence.
  - rewrite Hdelete in Hrun. congruence.
  - destruct (Hadd id) as [e' He']. rewrite He' in Hrun. congruence.
  - rewrite Hremove in Hrun. congruence.
Qed.

(** X8. A talk that was deleted is gone for everyone: the other talks are
    as before, and afterwards every update, deletion, speaker addition
    and speaker removal on its id fails with 404 "Talk not found". *)
Theorem deleted_talk_is_gone (uid : string) (talkId : Z) (s s1 : Store) :
  deleteTalk uid talkId s = (Ok tt, s1) →
  (∀ id, id ≠ talkId → getTalk id s1 = (fst (getTalk id s), s1))
  ∧ ∀ requester,
      let notFound := (Thrown (HttpException 404 "Talk not found"), s1) in
      (∀ body, updateTalk TalkBody writeBody requester talkId body s1 = notFound)
      ∧ deleteTalk requester talkId s1 = notFound
      ∧ (∀ id, addSpeakerToTalk TalkBody writeBody requester talkId id s1
               = notFound)
      ∧ (∀ id, removeSpeakerFromTalk TalkBody writeBody requester talkId id s1
               = notFound).
Proof.
  unfold deleteTalk at 1.
  destruct (reads (getTalk talkId) s) as [[talk|] Htalk]; step_with Htalk;
    [|done].
  destruct (existsb _ _); simpl; rewrite ?bind_ret, ?bind_throw; [|done].
  intros [= <-]. split.
  - intros id Hid. unfold getTalk, gets. cbn [talks users withTalks fst].
    by rewrite lookup_delete_ne.
  - intros requester. cbv zeta.
    assert (Hgone : getTalk talkId (withTalks (delete talkId (talks s)) s)
                    = (Ok None, withTalks (delete talkId (talks s)) s))
      by (apply getTalk_missing, lookup_delete_eq).
    split_and!.
    + intros body. unfold updateTalk. by step_with Hgone.
    + unfold deleteTalk. by step_with Hgone.
    + intros id. unfold addSpeakerToTalk. by step_with Hgone.
    + intros id. unfold removeSpeakerFromTalk. by step_with Hgone.
Qed.

End TalkHandlerTheorems.

(** ** More on submission and un-submission *)

Section MoreRows.

Context {A : Type}.

Lemma NoDup_map_bfilter {K} (k : A → K) (P : A → bool) (l : list A) :
  NoDup (map k l) → NoDup (map k (List.filter P l)).
Proof.
  induction l as [|a l IH]; simpl; [done|].
  intros [Ha Hnd]%NoDup_cons. destruct (P a); simpl; [|by apply IH].
  apply NoDup_cons. split; [|by apply IH].
  intros (x & Hkx & [Hx _]%elem_of_bfilter)%list_elem_of_fmap.
  apply Ha. rewrite Hkx. apply list_elem_of_fmap. eauto.
Qed.

Lemma bfilter_all (P : A → bool) (l : list A) :
  (∀ x, x ∈ l → P x = true) → List.filter P l = l.
Proof.
  induction l as [|a l IH]; simpl; intros H; [done|].
  rewrite (H a) by left. f_equal. apply IH. intros x Hx. apply H. by right.
Qed.

Lemma find_app_last (P : A → bool) (l : list A) (x : A) :
  (∀ y, y ∈ l → P y = false) → P x = true → find P (l ++ [x]) = Some x.
Proof.
  induction l as [|a l IH]; simpl; intros Hl Hx; [by rewrite Hx|].
  rewrite (Hl a) by left. apply IH; [|done]. intros y Hy. apply Hl. by right.
Qed.

(** Rewriting rows without changing whether they pass a test keeps the
    number of rows that pass it. *)
Lemma bfilter_map_rewrite_length (P g : A → bool) (f : A → A) (l : list A) :
  (∀ x, x ∈ l → g x = true → P (f x) = P x) →
  length (List.filter P (map (λ x, if g x then f x else x) l))
  = length (List.filter P l).
Proof.
  induction l as [|a l IH]; simpl; intros H; [done|].
  assert (HP : P (if g a then f a else a) = P a).
  { destruct (g a) eqn:Hg; [|done]. apply H; [left | done]. }
  rewrite HP. destruct (P a); simpl; rewrite IH; try done.
  all: intros x Hx; apply H; by right.
Qed.

End MoreRows.

Section SubmissionFacts.

Variable isCfpOpened : EventType → option Z → option Z → bool.

Lemma Resolved_frame req s s' user talk event :
  users s' = users s → talks s' = talks s → events s' = events s →
  Resolved isCfpOpened req s user talk event →
  Resolved isCfpOpened req s' user talk event.
Proof.
  intros Husers Htalks Hevents.
  unfold Resolved, getUserByUid, getTalk, getEventById, gets.
  rewrite Husers, Htalks, Hevents.
  intros ([= Huser] & [= Htalk] & ? & [= Hevent] & ?).
  rewrite Huser, Htalk, Hevent. done.
Qed.

(** What a successful un-submission found and removed. *)
Lemma unsubmitTalk_ok req s s' :
  unsubmitTalk isCfpOpened req s = (Ok tt, s') →
  ∃ user talk event p,
    Resolved isCfpOpened req s user talk event
    ∧ p ∈ proposals s
    ∧ Proposal.talkId p = Request.talkId req
    ∧ Proposal.eventId p = Request.eventId req
    ∧ s' = withProposals
             (List.filter (λ q, negb (Proposal.id q =? Proposal.id p)) (proposals s))
             (proposalSeq s) s.
Proof.
  destruct (resolution isCfpOpened req s)
    as [(user & talk & event & Hresolved)|(e & _ & _ & ->)]; [|done].
  rewrite (unsubmitTalk_resolved _ _ _ _ _ _ Hresolved).
  destruct (find _ _) as [p|] eqn:Hfind; [|done].
  intros [= <-]. apply find_Some_elem in Hfind
    as [Hp [Htalk%Z.eqb_eq Hevent%Z.eqb_eq]%andb_true_iff].
  by exists user, talk, event, p.
Qed.

(** What a successful submission did: it rewrote the proposal it found,
    or appended a new row when there was none for the pair. *)
Lemma submitTalk_ok req s s' :
  submitTalk isCfpOpened req s = (Ok tt, s') →
  ∃ user talk event,
    Checked isCfpOpened req s user talk event
    ∧ ((∃ p, existingProposal req user s = Some p
             ∧ s' = withProposals
                      (map (λ q, if Proposal.id q =? Proposal.id p
                                 then snapshot q talk (Request.body req) else q)
                           (proposals s))
                      (proposalSeq s) s)
       ∨ (existingProposal req user s = None
          ∧ proposalsFor (Request.talkId req) (Request.eventId req) s = []
          ∧ match Event.maxProposals event with
            | Some m => negb (m =? 0) && (proposalCount req user s =? m)
            | None => false
            end = false
          ∧ s' = withProposals
                   (proposals s ++
                    [snapshot
                       (Proposal.mk (proposalSeq s) (Request.talkId req)
                          (Request.eventId req) SUBMITTED
                          "" "" None None None None ∅ ∅ ∅)
                       talk (Request.body req)])
                   (proposalSeq s + 1) s)).
Proof.
  destruct (submitTalk_checks isCfpOpened req s)
    as [(user & talk & event & Hchecked)|(e & _ & ->)]; [|done].
  rewrite (submitTalk_checked _ _ _ _ _ _ Hchecked).
  exists user, talk, event. split; [done|].
  destruct (existingProposal req user s) as [p|] eqn:Hfound.
  - left. exists p. split; [done|]. congruence.
  - right. revert H.
    destruct (match Event.maxProposals event with Some _ => _ | None => _ end);
      [done|].
    destruct (proposalsFor _ _ _); [|done]. by intros [= <-].
Qed.

End SubmissionFacts.

Section SubmissionTheorems.

Variable isCfpOpened : EventType → option Z → option Z → bool.

(** X9. Submission and un-submission keep the constraints of the schema:
    unique uids, unique proposal ids below the id counter, and at most
    one proposal per (talkId, eventId), whatever they return. *)
Theorem submission_keeps_schema (req : Request.t) (s s' : Store)
    (r : Result unit) :
  wfStore s →
  submitTalk isCfpOpened req s = (r, s')
  ∨ unsubmitTalk isCfpOpened req s = (r, s') →
  wfStore s'.
Proof.
  intros Hwf [Hrun|Hrun]; [by eapply submitTalk_wf|].
  destruct r as [[]|e]; last first.
  { by rewrite (unsubmitTalk_thrown _ _ _ _ _ Hrun). }
  apply unsubmitTalk_ok in Hrun as (_ & _ & _ & p & _ & _ & _ & _ & ->).
  destruct Hwf as (Huids & Hids & Hseq & Hkeys).
  unfold wfStore. simpl. split_and!; [done| | |].
  - by apply NoDup_map_bfilter.
  - intros q [Hq _]%elem_of_bfilter. by apply Hseq.
  - by apply NoDup_map_bfilter.
Qed.

(** X12. On a store that meets the constraints of the schema, submission
    and un-submission write the table of proposals only, and in it only
    the (talkId, eventId) pair of the request: users, talks, events,
    memberships, ratings and messages are as before, and so is every
    proposal of another talk or another event. *)
Theorem submission_touches_its_pair_only (req : Request.t) (s s' : Store)
    (r : Result unit) :
  wfStore s →
  submitTalk isCfpOpened req s = (r, s')
  ∨ unsubmitTalk isCfpOpened req s = (r, s') →
  users s' = users s ∧ talks s' = talks s ∧ events s' = events s
  ∧ members s' = members s ∧ ratings s' = ratings s ∧ messages s' = messages s
  ∧ ∀ q, (Proposal.talkId q, Proposal.eventId q)
         ≠ (Request.talkId req, Request.eventId req) →
         q ∈ proposals s' ↔ q ∈ proposals s.
Proof.
  intros (_ & Hids & _ & _) Hrun.
  destruct r as [[]|e]; last first.
  { assert (s' = s) as ->; [|done].
    destruct Hrun as [Hrun|Hrun];
      [by eapply submitTalk_thrown | by eapply unsubmitTalk_thrown]. }
  destruct Hrun as [Hrun|Hrun].
  - apply submitTalk_ok in Hrun as (user & talk & event & Hchecked & Hrun).
    destruct Hrun as [(p & Hfound & ->)|(_ & _ & _ & ->)];
      (split_and!; [done..|]); intros q Hkey; simpl.
    + apply existingProposal_Some in Hfound as (Hp & Htalk & Hevent & _).
      split.
      * intros (q0 & Hq0 & ->)%elem_of_map_rewrite.
        destruct (_ =? _) eqn:Hid; [|done].
        apply Z.eqb_eq in Hid.
        rewrite (unique_key_inj _ _ _ _ Hids Hq0 Hp Hid) in Hkey.
        simpl in Hkey. congruence.
      * intros Hq. apply list_elem_of_fmap. exists q. split; [|done].
        destruct (_ =? _) eqn:Hid; [|done].
        apply Z.eqb_eq in Hid.
        rewrite (unique_key_inj _ _ _ _ Hids Hq Hp Hid) in Hkey. congruence.
    + rewrite elem_of_app, list_elem_of_singleton. split; [|by left].
      intros [Hq| ->]; [done|]. by simpl in Hkey.
  - apply unsubmitTalk_ok in Hrun
      as (user & talk & event & p & _ & Hp & Htalk & Hevent & ->).
    split_and!; [done..|]. intros q Hkey. simpl.
    rewrite elem_of_bfilter, negb_true_iff, Z.eqb_neq.
    split; [by intros [? _]|]. intros Hq. split; [done|]. intros Hid.
    rewrite (unique_key_inj _ _ _ _ Hids Hq Hp Hid) in Hkey. congruence.
Qed.

(** X13. On a store that meets the constraints of the schema, with a cap
    that is defined and not zero, a submission never takes the number of
    proposals the requester has for the event above the cap: if that
    number is at most [maxProposals] before, it is at most [maxProposals]
    after, whatever the submission returns. *)
Theorem submission_respects_cap (req : Request.t) (s s' : Store)
    (r : Result unit) (user : User.t) (talk : Talk.t) (event : Event.t) (m : Z) :
  wfStore s →
  Checked isCfpOpened req s user talk event →
  Event.maxProposals event = Some m → m ≠ 0 →
  proposalCount req user s ≤ m →
  submitTalk isCfpOpened req s = (r, s') →
  proposalCount req user s' ≤ m.
Proof.
  intros (Huids & Hids & _ & _) Hchecked Hmax Hm Hcount.
  pose proof (requester_among_speakers _ _ _ _ _ _ Huids (proj1 Hchecked))
    as Hlisted.
  rewrite (submitTalk_checked _ _ _ _ _ _ Hchecked), Hmax.
  destruct (existingProposal req user s) as [p|] eqn:Hfound.
  - intros [= _ <-].
    apply existingProposal_Some in Hfound as (Hp & _ & Hevent & Hspeaker).
    revert Hcount. unfold proposalCount, findUserProposalsForEvent, gets. simpl.
    rewrite bfilter_map_rewrite_length; [done|].
    intros q Hq Hid%Z.eqb_eq.
    rewrite (unique_key_inj _ _ _ _ Hids Hq Hp Hid). simpl.
    rewrite Hevent, Z.eqb_refl. simpl.
    by rewrite !bool_decide_eq_true_2.
  - destruct (negb (m =? 0) && _) eqn:Hcap; [by intros [= _ <-]|].
    destruct (proposalsFor _ _ _); [|by intros [= _ <-]].
    intros [= _ <-].
    apply andb_false_iff in Hcap as [Hcap|Hcap%Z.eqb_neq].
    { apply negb_false_iff, Z.eqb_eq in Hcap. done. }
    revert Hcount Hcap.
    unfold proposalCount, findUserProposalsForEvent, gets. simpl.
    rewrite List.filter_app, length_app. simpl.
    rewrite Z.eqb_refl, bool_decide_eq_true_2 by done. simpl. lia.
Qed.

(** X14. On a store that meets the constraints of the schema, a speaker
    of the talk whom the talk's proposal for the event does not list (one
    added to the talk after it was submitted) cannot resubmit it: the
    proposal is not found among the requester's own, so the submission
    takes the creation path and ends in 403 "Max proposals reached" or in
    the store's uniqueness conflict; the proposal is left as it was. *)
Theorem unlisted_speaker_cannot_resubmit (req : Request.t) (s : Store)
    (user : User.t) (talk : Talk.t) (event : Event.t) (p : Proposal.t) :
  wfStore s →
  Checked isCfpOpened req s user talk event →
  p ∈ proposals s →
  Proposal.talkId p = Request.talkId req →
  Proposal.eventId p = Request.eventId req →
  User.id user ∉ Proposal.speakers p →
  submitTalk isCfpOpened req s
  = (Thrown (HttpException 403 "Max proposals reached"), s)
  ∨ submitTalk isCfpOpened req s = (Thrown StoreConflict, s).
Proof.
  intros (_ & _ & _ & Hkeys) Hchecked Hp Htalk Hevent Hunlisted.
  rewrite (submitTalk_checked _ _ _ _ _ _ Hchecked).
  destruct (existingProposal req user s) as [q|] eqn:Hfound.
  { apply existingProposal_Some in Hfound as (Hq & Hqt & Hqe & Hlisted).
    assert (q = p) as ->
      by (apply (unique_key_inj _ _ _ _ Hkeys Hq Hp); congruence).
    done. }
  destruct (match Event.maxProposals event with Some _ => _ | None => _ end);
    [by left|].
  destruct (proposalsFor _ _ _) eqn:Hrows; [|by right].
  assert (p ∈ proposalsFor (Request.talkId req) (Request.eventId req) s) as Hin.
  { apply elem_of_bfilter. split; [done|].
    apply andb_true_iff. by rewrite !Z.eqb_eq. }
  rewrite Hrows in Hin. by apply elem_of_nil in Hin.
Qed.

(** X15. A non-empty array of formats whose entries are all falsy counts
    as supplied: the submission never fails with 400 "Formats are
    required for the event", and when it succeeds on a store that meets
    the constraints of the schema, the proposal of the pair has no
    formats. *)
Theorem falsy_formats_count_as_supplied (req : Request.t) (s : Store)
    (xs : list Z) :
  Body.formats (Request.body req) = Some xs →
  xs ≠ [] →
  Forall (λ x, x = 0) xs →
  submitTalk isCfpOpened req s
  ≠ (Thrown (HttpException 400 "Formats are required for the event"), s)
  ∧ (∀ s', wfStore s → submitTalk isCfpOpened req s = (Ok tt, s') →
           ∃ p, proposalsFor (Request.talkId req) (Request.eventId req) s' = [p]
                ∧ Proposal.formats p = ∅).
Proof.
  intros Hformats Hxs Hzero. split.
  - destruct (resolution isCfpOpened req s)
      as [(user & talk & event & Hresolved)|(e & He & -> & _)].
    2:{ intros [= ->]. revert He. unfold checkFailures. simpl.
        rewrite !elem_of_cons, elem_of_nil.
        intros [H|[H|[H|[H|[H|H]]]]]; done. }
    pose proof Hresolved as (Huser & Htalk & Hspeaker & Hevent & Hcfp).
    assert (Hsupplied :
      Event.formatsRequired event && isEmpty (Body.formats (Request.body req))
      = false).
    { rewrite Hformats. destruct xs; [done|]. apply andb_false_r. }
    destruct (Event.categoriesRequired event
              && isEmpty (Body.categories (Request.body req))) eqn:Hcategories.
    + unfold submitTalk; cbv zeta.
      step_with Huser. step_with Htalk. step_test Hspeaker. step_with Hevent.
      step_test Hcfp. step_test Hsupplied. step_test Hcategories. done.
    + assert (Hchecked : Checked isCfpOpened req s user talk event) by done.
      rewrite (submitTalk_checked _ _ _ _ _ _ Hchecked).
      destruct (existingProposal req user s); [done|].
      destruct (match Event.maxProposals event with Some _ => _ | None => _ end);
        [done|].
      by destruct (proposalsFor _ _ _).
  - intros s' Hwf Hrun.
    pose proof (submitTalk_wf _ _ _ _ _ Hwf Hrun) as Hwf'.
    destruct (submitTalk_ok_row _ _ _ _ Hwf Hrun)
      as (user & talk & event & p & Hchecked & Hp & Htalk & Hevent & Hspeaker
          & Hfixed).
    destruct (resubmit_fixed _ _ _ _ _ _ _ Hwf' Hchecked Hp Htalk Hevent Hspeaker
                Hfixed) as (_ & Hrows & _).
    exists p. split; [done|]. rewrite <-Hfixed. simpl.
    unfold supplied. rewrite Hformats. simpl.
    rewrite bfilter_none; [done|].
    intros x Hx. rewrite Forall_forall in Hzero.
    by rewrite (Hzero x Hx).
Qed.

End SubmissionTheorems.

(** ** Two requests in a row

    Each request reads the clock for itself: the first is served under
    [isCfpOpened], the one after it under [isCfpOpenedAgain]. *)

Section TwoRequests.

Variable isCfpOpened : EventType → option Z → option Z → bool.
Variable isCfpOpenedAgain : EventType → option Z → option Z → bool.

(** The checks resolve one user, one talk and one event. *)
Lemma Resolved_inj req s user talk event user' talk' event' :
  Resolved isCfpOpened req s user talk event →
  Resolved isCfpOpened req s user' talk' event' →
  user' = user ∧ talk' = talk ∧ event' = event.
Proof.
  intros (Hu & Ht & _ & He & _) (Hu' & Ht' & _ & He' & _).
  split_and!; congruence.
Qed.

(** The checks that do not read the clock pass again on a store with the
    same users, talks and events; the CFP is asked anew. *)
Lemma Checked_again req s s' user talk event :
  users s' = users s → talks s' = talks s → events s' = events s →
  Checked isCfpOpened req s user talk event →
  isCfpOpenedAgain (Event.type event) (Event.cfpStart event) (Event.cfpEnd event)
  = true →
  Checked isCfpOpenedAgain req s' user talk event.
Proof.
  intros Husers Htalks Hevents Hchecked Hopen.
  pose proof (Checked_frame isCfpOpened req s s' user talk event
                Husers Htalks Hevents Hchecked)
    as ((Hu & Ht & Hs & He & _) & Hf & Hc).
  done.
Qed.

(** A submission that passes the checks succeeds when it finds a proposal
    to update, or when the talk has no proposal for the event and the cap
    does not refuse a new one. *)
Lemma submitTalk_succeeds req s user talk event :
  Checked isCfpOpened req s user talk event →
  is_Some (existingProposal req user s)
  ∨ (proposalsFor (Request.talkId req) (Request.eventId req) s = []
     ∧ ∀ m, Event.maxProposals event = Some m →
            m = 0 ∨ proposalCount req user s ≠ m) →
  ∃ s1, submitTalk isCfpOpened req s = (Ok tt, s1).
Proof.
  intros Hchecked Hcase.
  rewrite (submitTalk_checked _ _ _ _ _ _ Hchecked).
  destruct Hcase as [[p ->]|[Hnone Hfree]]; [by eexists|].
  rewrite (existingProposal_no_row _ _ _ Hnone), Hnone.
  destruct (Event.maxProposals event) as [m|]; [|by eexists].
  destruct (Hfree m eq_refl) as [->|Hne]; [by eexists|].
  apply Z.eqb_neq in Hne. rewrite Hne, andb_false_r. by eexists.
Qed.

(** C1, as amended. On a store that meets the constraints of the schema,
    for a requester who passes the checks, and who either already has a
    proposal of the talk for the event, or submits a talk that has no
    proposal for the event while the cap does not refuse a new one: the
    submission succeeds and leaves exactly one row for (talkId, eventId);
    the same submission made again while the CFP is open finds that row
    as the proposal to update, succeeds, and leaves the store as the
    first one left it: still that one row, no new one. *)
Theorem submitTalk_idempotent (req : Request.t) (s : Store)
    (user : User.t) (talk : Talk.t) (event : Event.t) :
  wfStore s →
  Checked isCfpOpened req s user talk event →
  isCfpOpenedAgain (Event.type event) (Event.cfpStart event) (Event.cfpEnd event)
  = true →
  is_Some (existingProposal req user s)
  ∨ (proposalsFor (Request.talkId req) (Request.eventId req) s = []
     ∧ ∀ m, Event.maxProposals event = Some m →
            m = 0 ∨ proposalCount req user s ≠ m) →
  ∃ s1 p,
    submitTalk isCfpOpened req s = (Ok tt, s1)
    ∧ proposalsFor (Request.talkId req) (Request.eventId req) s1 = [p]
    ∧ getUserByUid (Request.uid req) s1 = (Ok (Some user), s1)
    ∧ existingProposal req user s1 = Some p
    ∧ submitTalk isCfpOpenedAgain req s1 = (Ok tt, s1).
Proof.
  intros Hwf Hchecked Hopen Hcase.
  destruct (submitTalk_succeeds _ _ _ _ _ Hchecked Hcase) as [s1 Hrun].
  pose proof (submitTalk_wf _ _ _ _ _ Hwf Hrun) as Hwf1.
  destruct (submitTalk_ok_row _ _ _ _ Hwf Hrun)
    as (user' & talk' & event' & p & Hchecked1 & Hp & Htalk & Hevent & Hspeaker
        & Hfixed).
  assert (Htables : users s1 = users s ∧ talks s1 = talks s ∧ events s1 = events s).
  { apply submitTalk_ok in Hrun
      as (u & t & e & _ & [(q & _ & ->)|(_ & _ & _ & ->)]); done. }
  destruct Htables as (Husers & Htalks & Hevents).
  pose proof (Checked_frame isCfpOpened req s s1 user talk event
                Husers Htalks Hevents Hchecked) as Hchecked1'.
  destruct (Resolved_inj _ _ _ _ _ _ _ _ (proj1 Hchecked1') (proj1 Hchecked1))
    as (-> & -> & ->).
  pose proof (Checked_again req s s1 user talk event
                Husers Htalks Hevents Hchecked Hopen) as Hagain.
  destruct (resubmit_fixed _ _ _ _ _ _ _ Hwf1 Hagain Hp Htalk Hevent Hspeaker Hfixed)
    as (Hfound & Hrows & Hsame).
  exists s1, p. split_and!; [done..| |done|done].
  apply Hchecked1.
Qed.

(** X10. On a store that meets the constraints of the schema, a
    submission that passes the checks, of a talk that has no proposal
    for the event, under a cap that does not refuse it, succeeds; the
    un-submission that follows succeeds when the CFP is open at that
    time, and gives back the table of proposals as it was, with only the
    id counter moved on; when the CFP has closed in between it fails with
    403 "CFP is closed" and the proposal stays. *)
Theorem submit_then_unsubmit (req : Request.t) (s : Store)
    (user : User.t) (talk : Talk.t) (event : Event.t) :
  wfStore s →
  Checked isCfpOpened req s user talk event →
  proposalsFor (Request.talkId req) (Request.eventId req) s = [] →
  (∀ m, Event.maxProposals event = Some m → m = 0 ∨ proposalCount req user s ≠ m) →
  ∃ s1,
    submitTalk isCfpOpened req s = (Ok tt, s1)
    ∧ unsubmitTalk isCfpOpenedAgain req s1
      = if isCfpOpenedAgain (Event.type event) (Event.cfpStart event)
             (Event.cfpEnd event)
        then (Ok tt, withProposals (proposals s) (proposalSeq s + 1) s)
        else (Thrown (HttpException 403 "CFP is closed"), s1).
Proof.
  intros (_ & _ & Hseq & _) Hchecked Hnone Hfree.
  destruct (submitTalk_succeeds _ _ _ _ _ Hchecked (or_intror (conj Hnone Hfree)))
    as [s1 Hrun].
  exists s1. split; [done|].
  apply submitTalk_ok in Hrun as (user' & talk' & event' & _ & Hrun).
  destruct Hrun as [(p & Hfound & _)|(_ & _ & _ & ->)].
  { by rewrite (existingProposal_no_row _ _ _ Hnone) in Hfound. }
  set (new := snapshot _ talk' (Request.body req)).
  set (s1 := withProposals (proposals s ++ [new]) (proposalSeq s + 1) s).
  destruct Hchecked as ((Huser & Htalk & Hspeaker & Hevent & _) & _).
  assert (Huser1 : getUserByUid (Request.uid req) s1 = (Ok (Some user), s1)).
  { injection Huser as Huser. unfold getUserByUid, gets.
    change (users s1) with (users s). by rewrite Huser. }
  assert (Htalk1 : getTalk (Request.talkId req) s1 = (Ok (Some talk), s1)).
  { injection Htalk as Htalk. unfold getTalk, gets.
    change (users s1) with (users s). change (talks s1) with (talks s).
    by rewrite Htalk. }
  assert (Hevent1 : getEventById (Request.eventId req) s1 = (Ok (Some event), s1)).
  { injection Hevent as Hevent. unfold getEventById, gets.
    change (events s1) with (events s). by rewrite Hevent. }
  destruct (isCfpOpenedAgain _ _ _) eqn:Hopen; last first.
  { unfold unsubmitTalk; cbv zeta.
    step_with Huser1. step_with Htalk1. step_test Hspeaker. step_with Hevent1.
    by step_test Hopen. }
  assert (Hresolved : Resolved isCfpOpenedAgain req s1 user talk event) by done.
  rewrite (unsubmitTalk_resolved _ _ _ _ _ _ Hresolved). simpl.
  rewrite find_app_last; last by rewrite !Z.eqb_refl.
  - unfold withProposals. cbn [users talks events proposals proposalSeq members
                              ratings messages].
    f_equal. f_equal. rewrite List.filter_app. simpl. rewrite Z.eqb_refl. simpl.
    rewrite app_nil_r. apply bfilter_all.
    intros q Hq. apply negb_true_iff, Z.eqb_neq. specialize (Hseq q Hq).
    subst new. simpl. lia.
  - intros q Hq. destruct (_ && _) eqn:Hkey; [|done].
    assert (q ∈ proposalsFor (Request.talkId req) (Request.eventId req) s) as Hin
      by (by apply elem_of_bfilter).
    rewrite Hnone in Hin. by apply elem_of_nil in Hin.
Qed.

(** X11. On a store that meets the constraints of the schema, the
    un-submission of a talk that has a proposal for the event, by a
    requester who passes the shared checks, succeeds, and it cannot be
    repeated: the un-submission that follows fails and leaves the store as
    it is, with 404 "Proposal not found" when the CFP is open at that
    time and with 403 "CFP is closed" when it has closed in between. *)
Theorem unsubmit_twice (req : Request.t) (s : Store)
    (user : User.t) (talk : Talk.t) (event : Event.t) (p : Proposal.t) :
  wfStore s →
  Resolved isCfpOpened req s user talk event →
  getProposalForEvent (Request.talkId req) (Request.eventId req) s
  = (Ok (Some p), s) →
  ∃ s1,
    unsubmitTalk isCfpOpened req s = (Ok tt, s1)
    ∧ unsubmitTalk isCfpOpenedAgain req s1
      = (Thrown
           (if isCfpOpenedAgain (Event.type event) (Event.cfpStart event)
                 (Event.cfpEnd event)
            then HttpException 404 "Proposal not found"
            else HttpException 403 "CFP is closed"),
         s1).
Proof.
  intros (_ & _ & _ & Hkeys) Hresolved [= Hfind].
  rewrite (unsubmitTalk_resolved _ _ _ _ _ _ Hresolved), Hfind.
  eexists. split; [done|].
  set (s1 := withProposals _ _ s).
  apply find_Some_elem in Hfind
    as [Hp [Htalk%Z.eqb_eq Hevent%Z.eqb_eq]%andb_true_iff].
  pose proof (Resolved_frame isCfpOpened req s s1 user talk event
                eq_refl eq_refl eq_refl Hresolved)
    as (Huser1 & Htalk1 & Hspeaker & Hevent1 & _).
  destruct (isCfpOpenedAgain _ _ _) eqn:Hopen; last first.
  { unfold unsubmitTalk; cbv zeta.
    step_with Huser1. step_with Htalk1. step_test Hspeaker. step_with Hevent1.
    by step_test Hopen. }
  assert (Hresolved1 : Resolved isCfpOpenedAgain req s1 user talk event) by done.
  rewrite (unsubmitTalk_resolved _ _ _ _ _ _ Hresolved1).
  rewrite find_None_intro; [done|].
  intros q [Hq Hid]%elem_of_bfilter.
  destruct (_ && _) eqn:Hkey; [|done].
  apply andb_true_iff in Hkey as [Hqt%Z.eqb_eq Hqe%Z.eqb_eq].
  apply negb_true_iff, Z.eqb_neq in Hid. exfalso. apply Hid. f_equal.
  apply (unique_key_inj _ _ _ _ Hkeys Hq Hp). congruence.
Qed.

End TwoRequests.

(** ** The further statements at the scenario *)

Lemma addSpeakerToTalk_checks_in_order_witness :
  addSpeakerToTalk string retitle "other" 10 99 scenario
  = (Thrown (HttpException 404 "Speaker not found"), scenario)
  ∧ ∃ row,
      talks scenario !! 10 = Some row
      ∧ addSpeakerToTalk string retitle "ben" 10 2 scenario
        = (Ok tt,
           withTalks
             (<[10 := TalkRow.mk (TalkRow.title row) (TalkRow.abstract row)
                        (TalkRow.level row) (TalkRow.language row)
                        (TalkRow.references row)
                        (TalkRow.speakerIds row ∪ {[2]})]> (talks scenario))
             scenario).
Proof.
  split.
  - destruct (addSpeakerToTalk_checks_in_order string retitle "other" 10 99 scenario)
      as (_ & Htalk & _).
    destruct (Htalk talkA eq_refl) as (Hmissing & _).
    apply Hmissing. reflexivity.
  - destruct (addSpeakerToTalk_checks_in_order string retitle "ben" 10 2 scenario)
      as (_ & Htalk & _).
    destruct (Htalk talkA eq_refl) as (_ & Hfound).
    destruct (Hfound other eq_refl) as (_ & Hspeaker).
    destruct (Hspeaker eq_refl) as (_ & Hnew).
    apply Hnew. reflexivity.
Defined.

Lemma removeSpeakerFromTalk_checks_in_order_witness :
  removeSpeakerFromTalk string retitle "ben" 10 2 scenario
  = (Thrown (HttpException 409 "Speaker does not belong to the talk"), scenario)
  ∧ ∃ row,
      talks scenario !! 11 = Some row
      ∧ removeSpeakerFromTalk string retitle "ben" 11 2 scenario
        = (Ok tt,
           withTalks
             (<[11 := TalkRow.mk (TalkRow.title row) (TalkRow.abstract row)
                        (TalkRow.level row) (TalkRow.language row)
                        (TalkRow.references row)
                        (TalkRow.speakerIds row ∖ {[2]})]> (talks scenario))
             scenario).
Proof.
  split.
  - destruct (removeSpeakerFromTalk_checks_in_order string retitle "ben" 10 2
                scenario) as (_ & Htalk & _).
    destruct (Htalk talkA eq_refl) as (_ & Hspeaker).
    destruct (Hspeaker eq_refl) as (Habsent & _).
    apply Habsent. reflexivity.
  - destruct (removeSpeakerFromTalk_checks_in_order string retitle "ben" 11 2
                scenario) as (_ & Htalk & _).
    destruct (Htalk talkB eq_refl) as (_ & Hspeaker).
    destruct (Hspeaker eq_refl) as (_ & Hlinked).
    apply Hlinked. reflexivity.
Defined.

Lemma add_then_remove_speaker_witness :
  removeSpeakerFromTalk string retitle "ben" 10 2 (withCoSpeaker scenario)
  = (Ok tt, scenario).
Proof.
  apply (add_then_remove_speaker string retitle "ben" 10 2 scenario
           (withCoSpeaker scenario)).
  vm_compute. reflexivity.
Defined.

Lemma add_speaker_twice_conflicts_witness :
  addSpeakerToTalk string retitle "ben" 10 2 (withCoSpeaker scenario)
  = (Thrown (HttpException 409 "Speaker already attached to the talk"),
     withCoSpeaker scenario).
Proof.
  apply (add_speaker_twice_conflicts string retitle "ben" 10 2 scenario
           (withCoSpeaker scenario)).
  vm_compute. reflexivity.
Defined.

Lemma removed_speaker_is_locked_out_witness :
  deleteTalk "other" 11 afterOtherLeft
  = (Thrown (HttpException 403 "Forbidden"), afterOtherLeft)
  ∧ unsubmitTalk (isCfpOpenedAt 15) (submission "other" 11 100) afterOtherLeft
    = (Thrown (HttpException 403 "Forbidden"), afterOtherLeft).
Proof.
  destruct (removed_speaker_is_locked_out string retitle (isCfpOpenedAt 15)
              "other" 11 2 other scenario afterOtherLeft)
    as (_ & Hdelete & _ & Hsubmit).
  - apply (bool_decide_unpack _). by vm_compute.
  - reflexivity.
  - reflexivity.
  - vm_compute. reflexivity.
  - split; [exact Hdelete|].
    exact (proj2 (Hsubmit 100 (Request.body (submission "other" 11 100)))).
Defined.

Lemma last_speaker_removed_orphans_talk_witness :
  (∃ talk, getTalk 10 orphaned = (Ok (Some talk), orphaned)
           ∧ Talk.speakers talk = [])
  ∧ deleteTalk "ben" 10 orphaned
    = (Thrown (HttpException 403 "Forbidden"), orphaned).
Proof.
  destruct (last_speaker_removed_orphans_talk string retitle "ben" 10 1
              (talkRowA {[1]}) scenario orphaned) as (Hempty & Hall).
  - reflexivity.
  - reflexivity.
  - vm_compute. reflexivity.
  - split; [exact Hempty|]. exact (proj1 (proj2 (Hall "ben"))).
Defined.

Lemma talk_mutation_by_speakers_only_witness :
  ∃ talk,
    getTalk 10 scenario = (Ok (Some talk), scenario)
    ∧ existsb (λ speaker, String.eqb (User.uid speaker) "ben")
        (Talk.speakers talk) = true.
Proof.
  apply (talk_mutation_by_speakers_only string retitle "ben" 10 scenario
           afterDelete (Ok tt)).
  - right. left. vm_compute. reflexivity.
  - intros Hsame. apply (f_equal (λ s, talks s !! 10)) in Hsame.
    vm_compute in Hsame. discriminate Hsame.
Defined.

Lemma deleted_talk_is_gone_witness :
  deleteTalk "other" 10 afterDelete
  = (Thrown (HttpException 404 "Talk not found"), afterDelete)
  ∧ getTalk 11 afterDelete = (fst (getTalk 11 scenario), afterDelete).
Proof.
  destruct (deleted_talk_is_gone string retitle "ben" 10 scenario afterDelete)
    as (Hothers & Hgone).
  - vm_compute. reflexivity.
  - split; [exact (proj1 (proj2 (Hgone "other")))|]. apply Hothers. lia.
Defined.

Lemma submission_keeps_schema_witness : wfStore afterTalkA ∧ wfStore afterUnsubmit.
Proof.
  split.
  - apply (submission_keeps_schema (isCfpOpenedAt 15) (submission "ben" 10 100)
             scenario afterTalkA (Ok tt)).
    + exact scenario_wf.
    + left. vm_compute. reflexivity.
  - apply (submission_keeps_schema (isCfpOpenedAt 15) (submission "ben" 10 100)
             afterTalkA afterUnsubmit (Ok tt)).
    + exact afterTalkA_wf.
    + right. vm_compute. reflexivity.
Defined.

Lemma submission_touches_its_pair_only_witness :
  talks afterTalkB = talks afterTalkA
  ∧ (proposalA ∈ proposals afterTalkB ↔ proposalA ∈ proposals afterTalkA).
Proof.
  destruct (submission_touches_its_pair_only (isCfpOpenedAt 15)
              (submission "ben" 11 102) afterTalkA afterTalkB (Ok tt))
    as (_ & Htalks & _ & _ & _ & _ & Hrows).
  - exact afterTalkA_wf.
  - left. vm_compute. reflexivity.
  - split; [exact Htalks|]. apply Hrows. discriminate.
Defined.

Lemma submission_respects_cap_witness :
  proposalCount (submission "ben" 11 100) ben afterTalkA ≤ 1.
Proof.
  apply (submission_respects_cap (isCfpOpenedAt 15) (submission "ben" 11 100)
           afterTalkA afterTalkA
           (Thrown (HttpException 403 "Max proposals reached"))
           ben talkB benEvent 1).
  - exact afterTalkA_wf.
  - repeat split; vm_compute; reflexivity.
  - reflexivity.
  - lia.
  - vm_compute. discriminate.
  - vm_compute. reflexivity.
Defined.

Lemma unlisted_speaker_cannot_resubmit_witness :
  submitTalk (isCfpOpenedAt 15) (submission "other" 10 100)
    (withCoSpeaker afterTalkA)
  = (Thrown (HttpException 403 "Max proposals reached"), withCoSpeaker afterTalkA)
  ∨ submitTalk (isCfpOpenedAt 15) (submission "other" 10 100)
      (withCoSpeaker afterTalkA)
    = (Thrown StoreConflict, withCoSpeaker afterTalkA).
Proof.
  apply (unlisted_speaker_cannot_resubmit (isCfpOpenedAt 15)
           (submission "other" 10 100) (withCoSpeaker afterTalkA) other
           (Talk.mk "Talk A" "An abstract" (Some "BEGINNER") (Some "en") None
              [ben; other])
           benEvent proposalA).
  - exact afterTalkA_wf.
  - repeat split; vm_compute; reflexivity.
  - apply list_elem_of_singleton. reflexivity.
  - reflexivity.
  - reflexivity.
  - apply (bool_decide_unpack _). by vm_compute.
Defined.

Lemma falsy_formats_count_as_supplied_witness :
  submitTalk (isCfpOpenedAt 15) falsySubmission scenario
  ≠ (Thrown (HttpException 400 "Formats are required for the event"), scenario)
  ∧ ∃ p, proposalsFor 10 100 afterFalsy = [p] ∧ Proposal.formats p = ∅.
Proof.
  destruct (falsy_formats_count_as_supplied (isCfpOpenedAt 15) falsySubmission
              scenario [0; 0]) as (Hpasses & Hstored).
  - reflexivity.
  - discriminate.
  - repeat constructor.
  - split; [exact Hpasses|]. apply Hstored; [exact scenario_wf|].
    vm_compute. reflexivity.
Defined.

Lemma submitTalk_idempotent_witness :
  ∃ s1 p,
    submitTalk (isCfpOpenedAt 15) (submission "ben" 10 100) scenario = (Ok tt, s1)
    ∧ proposalsFor 10 100 s1 = [p]
    ∧ getUserByUid "ben" s1 = (Ok (Some ben), s1)
    ∧ existingProposal (submission "ben" 10 100) ben s1 = Some p
    ∧ submitTalk (isCfpOpenedAt 18) (submission "ben" 10 100) s1 = (Ok tt, s1).
Proof.
  apply (submitTalk_idempotent (isCfpOpenedAt 15) (isCfpOpenedAt 18)
           (submission "ben" 10 100) scenario ben talkA benEvent).
  - exact scenario_wf.
  - repeat split; vm_compute; reflexivity.
  - reflexivity.
  - right. split; [reflexivity|]. intros m [= <-]. right.
    vm_compute. discriminate.
Defined.

(** C1, as stated, for requesters who are speakers of the talk and pass
    every check. Two submissions of talk B at the cap leave no row for the
    pair; and for the co-speaker whom the proposal of talk A does not
    list, the second submission finds no proposal to update. *)
Lemma submitTalk_idempotent_as_stated_fails :
  ¬ (∀ (isCfpOpened : EventType → option Z → option Z → bool)
       (req : Request.t) (s : Store) (user : User.t) (talk : Talk.t)
       (event : Event.t),
       wfStore s →
       Checked isCfpOpened req s user talk event →
       length
         (proposalsFor (Request.talkId req) (Request.eventId req)
            (snd (submitTalk isCfpOpened req
                    (snd (submitTalk isCfpOpened req s))))) = 1%nat)
  ∧ ¬ (∀ (isCfpOpened : EventType → option Z → option Z → bool)
         (req : Request.t) (s : Store) (user : User.t) (talk : Talk.t)
         (event : Event.t),
         wfStore s →
         Checked isCfpOpened req s user talk event →
         is_Some (existingProposal req user
                    (snd (submitTalk isCfpOpened req s)))).
Proof.
  split.
  - intros Hclaim.
    assert (Hchecked : Checked (isCfpOpenedAt 15) (submission "ben" 11 100)
                         afterTalkA ben talkB benEvent)
      by (repeat split; vm_compute; reflexivity).
    specialize (Hclaim _ _ _ _ _ _ afterTalkA_wf Hchecked).
    vm_compute in Hclaim. discriminate Hclaim.
  - intros Hclaim.
    assert (Hchecked : Checked (isCfpOpenedAt 15) (submission "other" 10 100)
                         (withCoSpeaker afterTalkA) other
                         (Talk.mk "Talk A" "An abstract" (Some "BEGINNER")
                            (Some "en") None [ben; other])
                         benEvent)
      by (repeat split; vm_compute; reflexivity).
    specialize (Hclaim (isCfpOpenedAt 15) (submission "other" 10 100)
                  (withCoSpeaker afterTalkA) other _ benEvent
                  afterTalkA_wf Hchecked).
    destruct Hclaim as [p Hfound]. vm_compute in Hfound. discriminate Hfound.
Qed.

Lemma submit_then_unsubmit_witness :
  (∃ s1,
     submitTalk (isCfpOpenedAt 15) (submission "ben" 10 100) scenario = (Ok tt, s1)
     ∧ unsubmitTalk (isCfpOpenedAt 18) (submission "ben" 10 100) s1
       = (Ok tt, afterUnsubmit))
  ∧ (∃ s1,
       submitTalk (isCfpOpenedAt 15) (submission "ben" 10 100) scenario
       = (Ok tt, s1)
       ∧ unsubmitTalk (isCfpOpenedAt 25) (submission "ben" 10 100) s1
         = (Thrown (HttpException 403 "CFP is closed"), s1)).
Proof.
  split.
  - apply (submit_then_unsubmit (isCfpOpenedAt 15) (isCfpOpenedAt 18)
             (submission "ben" 10 100) scenario ben talkA benEvent).
    + exact scenario_wf.
    + repeat split; vm_compute; reflexivity.
    + reflexivity.
    + intros m [= <-]. right. vm_compute. discriminate.
  - apply (submit_then_unsubmit (isCfpOpenedAt 15) (isCfpOpenedAt 25)
             (submission "ben" 10 100) scenario ben talkA benEvent).
    + exact scenario_wf.
    + repeat split; vm_compute; reflexivity.
    + reflexivity.
    + intros m [= <-]. right. vm_compute. discriminate.
Defined.

Lemma unsubmit_twice_witness :
  (∃ s1,
     unsubmitTalk (isCfpOpenedAt 15) (submission "ben" 10 100) afterTalkA
     = (Ok tt, s1)
     ∧ unsubmitTalk (isCfpOpenedAt 18) (submission "ben" 10 100) s1
       = (Thrown (HttpException 404 "Proposal not found"), s1))
  ∧ (∃ s1,
       unsubmitTalk (isCfpOpenedAt 15) (submission "ben" 10 100) afterTalkA
       = (Ok tt, s1)
       ∧ unsubmitTalk (isCfpOpenedAt 25) (submission "ben" 10 100) s1
         = (Thrown (HttpException 403 "CFP is closed"), s1)).
Proof.
  split.
  - apply (unsubmit_twice (isCfpOpenedAt 15) (isCfpOpenedAt 18)
             (submission "ben" 10 100) afterTalkA ben talkA benEvent proposalA).
    + exact afterTalkA_wf.
    + repeat split; vm_compute; reflexivity.
    + vm_compute. reflexivity.
  - apply (unsubmit_twice (isCfpOpenedAt 15) (isCfpOpenedAt 25)
             (submission "ben" 10 100) afterTalkA ben talkA benEvent proposalA).
    + exact afterTalkA_wf.
    + repeat split; vm_compute; reflexivity.
    + vm_compute. reflexivity.
Defined.
